(** * nmea_navsat_driver: the sentence driver [RosNMEADriver.add_sentence]

    A shallow embedding of [src/libnmea_navsat_driver/driver.py].  Python
    floats are IEEE binary64 numbers, modelled by Rocq's primitive floats;
    the attributes of [self] that [add_sentence] mutates are threaded through
    as an explicit state; every [publish] call is recorded, in order, in the
    list of publications of the call.  A call ends by returning or in one of
    the exceptions Python's float operations raise, with what it had assigned
    and published by then. *)

From Stdlib Require Import ZArith String Ascii List Floats Bool Lia.
From stdpp Require Import base option list gmap strings.
Import ListNotations.

Set Warnings "-inexact-float".

Local Open Scope string_scope.
Local Open Scope Z_scope.

(** ** Python values *)

(** A Python number as the parser hands it over: an [int] or a [float]. *)
Inductive pynum : Type :=
  | PyInt (z : Z)
  | PyFloat (f : float).

(** [math.isnan]: an [int] is never a NaN. *)
Definition math_isnan (n : pynum) : bool :=
  match n with
  | PyInt _ => false
  | PyFloat f => PrimFloat.is_nan f
  end.

(** [n != 0] on Python numbers (a NaN differs from zero, [-0.0] does not). *)
Definition pynum_nonzero (n : pynum) : bool :=
  match n with
  | PyInt z => negb (z =? 0)
  | PyFloat f => negb (PrimFloat.eqb f 0%float)
  end.

(** A field value the driver only copies or tests for truth. *)
Inductive pyval : Type :=
  | VNone
  | VBool (b : bool)
  | VNum (n : pynum)
  | VStr (s : string).

(** Python truthiness, as [if data['rudder_angle']:] uses it. *)
Definition truthy (v : pyval) : bool :=
  match v with
  | VNone => false
  | VBool b => b
  | VNum n => pynum_nonzero n
  | VStr s => negb (String.eqb s "")
  end.

(** ** ROS values and messages *)

(** [rospy.Time]: seconds and nanoseconds, kept as they were given to the
    constructor. *)
Record rostime : Type := Time { secs : pynum; nsecs : pynum }.

(** [bool(t)] of a time value: it is not zero. *)
Definition rostime_bool (t : rostime) : bool :=
  pynum_nonzero (secs t) || pynum_nonzero (nsecs t).

Definition zero_time : rostime := Time (PyInt 0) (PyInt 0).

Record Header : Type := mkHeader { stamp : rostime; frame_id : string }.

Definition Header_default : Header := mkHeader zero_time "".

(** Constants of [sensor_msgs/NavSatStatus] and [sensor_msgs/NavSatFix]. *)
Definition STATUS_NO_FIX : Z := -1.
Definition STATUS_FIX : Z := 0.
Definition STATUS_SBAS_FIX : Z := 1.
Definition STATUS_GBAS_FIX : Z := 2.
Definition SERVICE_GPS : Z := 1.
Definition COVARIANCE_TYPE_UNKNOWN : Z := 0.
Definition COVARIANCE_TYPE_APPROXIMATED : Z := 1.

Module NavSatFix.
Record t : Type := mk {
  header : Header;
  status_status : Z;
  status_service : Z;
  latitude : float;
  longitude : float;
  altitude : float;
  position_covariance : list float;
  position_covariance_type : Z
}.

(** [NavSatFix()]: every number zero, a covariance of nine zeros. *)
Definition new : t :=
  mk Header_default 0 0 0%float 0%float 0%float (replicate 9 0%float) 0.
End NavSatFix.

Module TwistStamped.
Record t : Type := mk {
  header : Header;
  linear_x : float; linear_y : float; linear_z : float;
  angular_x : float; angular_y : float; angular_z : float
}.
End TwistStamped.

Module TimeReference.
Record t : Type := mk {
  header : Header;
  time_ref : rostime;
  source : string
}.
End TimeReference.

Module HeaderString.
Record t : Type := mk { header : Header; data : string }.
End HeaderString.

(** A value assigned to an attribute of one of the auxiliary messages. *)
Inductive attr : Type :=
  | AStamp (t : rostime)
  | AFrame (s : string)
  | AField (v : pyval)
  | AAppend (v : pyval).

(** An auxiliary message ([Hdt()], [Gsa()], ...): its message type and the
    attribute assignments made on the fresh object, in source order. *)
Record aux_message : Type := AuxMsg {
  msg_type : string;
  assignments : list (string * attr)
}.

(** One [publish] call: the publisher of [__init__] and the message. *)
Inductive publication : Type :=
  | fix_pub (m : NavSatFix.t)
  | vel_pub (m : TwistStamped.t)
  | time_ref_pub (m : TimeReference.t)
  | nmea_pub (m : HeaderString.t)
  | aux_pub (topic : string) (m : aux_message).

(** A [rospy.logwarn] or [rospy.logdebug] call: the format string and the
    sentence interpolated into it, when there is one. *)
Inductive log_record : Type :=
  | logwarn (text : string) (sentence : option string)
  | logdebug (text : string) (sentence : option string).

(** ** Decoded sentences *)

(** The fields of the three sentence types the driver computes with, typed as
    the parser produces them. *)
Module GGA.
Record data : Type := mk {
  utc_time : pynum * pynum;
  fix_type : Z;
  latitude : float;
  latitude_direction : string;
  longitude : float;
  longitude_direction : string;
  altitude : float;
  mean_sea_level : float;
  hdop : float
}.

Definition with_fix_type (d : data) (k : Z) : data :=
  mk (utc_time d) k (latitude d) (latitude_direction d) (longitude d)
     (longitude_direction d) (altitude d) (mean_sea_level d) (hdop d).
End GGA.

Module RMC.
Record data : Type := mk {
  utc_time : pynum * pynum;
  fix_valid : bool;
  latitude : float;
  latitude_direction : string;
  longitude : float;
  longitude_direction : string;
  speed : float;
  true_course : float
}.
End RMC.

Module GST.
Record data : Type := mk {
  lon_std_dev : float;
  lat_std_dev : float;
  alt_std_dev : float
}.
End GST.

(** The other sentence types are only copied into messages: their fields are
    looked up by name. *)
Definition fields : Type := string -> pyval.

(** What [parse_nmea_sentence] returns on success: a dictionary with one key,
    the sentence type, holding that sentence's fields.  [KeyOther] stands for
    a key [add_sentence] has no branch for. *)
Inductive parsed_sentence : Type :=
  | KeyGGA (d : GGA.data)
  | KeyRMC (d : RMC.data)
  | KeyGST (d : GST.data)
  | KeyHDT (d : fields)
  | KeyRSA (d : fields)
  | KeyGSA (d : fields)
  | KeyZDA (d : fields)
  | KeyRPM (d : fields)
  | KeyHDG (d : fields)
  | KeyROT (d : fields)
  | KeyGSV (d : fields)
  | KeyVTG (d : fields)
  | KeyVBW (d : fields)
  | KeyGLL (d : fields)
  | KeyVDM (d : fields)
  | KeyVDO (d : fields)
  | KeyOther (key : string) (d : fields).

(** ** The driver object *)

(** The ROS parameters [__init__] reads; none is written afterwards.  The
    default errors are floats, as the docstring has them: the integer
    default [1000000] of [~epe_quality0] enters every operation of the
    driver as the float of the same value. *)
Record params : Type := mkParams {
  use_GNSS_time : bool;
  time_ref_source : option string;
  use_RMC : bool;
  default_epe_quality0 : float;
  default_epe_quality1 : float;
  default_epe_quality2 : float;
  default_epe_quality4 : float;
  default_epe_quality5 : float;
  default_epe_quality9 : float
}.

(** The parameters' defaults ([rospy.get_param]'s second argument). *)
Definition default_params : params :=
  mkParams false None false 1000000%float 4.0%float 0.1%float 0.02%float
           4.0%float 3.0%float.

(** The attributes of [self] that [add_sentence] assigns.
    [last_valid_fix_time] does not exist until the GGA branch sets it. *)
Record driver : Type := mkDriver {
  valid_fix : bool;
  using_receiver_epe : bool;
  lon_std_dev : float;
  lat_std_dev : float;
  alt_std_dev : float;
  last_valid_fix_time : option TimeReference.t
}.

(** The attributes as [__init__] leaves them. *)
Definition init : driver :=
  mkDriver false false nan nan nan None.

Definition set_valid_fix (self : driver) (b : bool) : driver :=
  mkDriver b (using_receiver_epe self) (lon_std_dev self) (lat_std_dev self)
           (alt_std_dev self) (last_valid_fix_time self).

Definition set_using_receiver_epe (self : driver) (b : bool) : driver :=
  mkDriver (valid_fix self) b (lon_std_dev self) (lat_std_dev self)
           (alt_std_dev self) (last_valid_fix_time self).

Definition set_lon_std_dev (self : driver) (x : float) : driver :=
  mkDriver (valid_fix self) (using_receiver_epe self) x (lat_std_dev self)
           (alt_std_dev self) (last_valid_fix_time self).

Definition set_lat_std_dev (self : driver) (x : float) : driver :=
  mkDriver (valid_fix self) (using_receiver_epe self) (lon_std_dev self) x
           (alt_std_dev self) (last_valid_fix_time self).

Definition set_alt_std_dev (self : driver) (x : float) : driver :=
  mkDriver (valid_fix self) (using_receiver_epe self) (lon_std_dev self)
           (lat_std_dev self) x (last_valid_fix_time self).

Definition set_last_valid_fix_time (self : driver) (m : TimeReference.t)
  : driver :=
  mkDriver (valid_fix self) (using_receiver_epe self) (lon_std_dev self)
           (lat_std_dev self) (alt_std_dev self) (Some m).

(** An entry of [gps_qualities]: default estimated position error,
    [NavSatStatus] value, [NavSatFix] covariance type. *)
Definition gps_quality : Type := (float * Z * Z)%type.

#[global] Instance float_inhabited : Inhabited float := populate 0%float.

(** [self.gps_qualities], built once by [__init__] from the parameters. *)
Definition gps_qualities (p : params) : gmap Z gps_quality :=
  {[ (-1) := (default_epe_quality0 p, STATUS_NO_FIX, COVARIANCE_TYPE_UNKNOWN);
     0 := (default_epe_quality0 p, STATUS_NO_FIX, COVARIANCE_TYPE_UNKNOWN);
     1 := (default_epe_quality1 p, STATUS_FIX, COVARIANCE_TYPE_APPROXIMATED);
     2 := (default_epe_quality2 p, STATUS_SBAS_FIX, COVARIANCE_TYPE_APPROXIMATED);
     4 := (default_epe_quality4 p, STATUS_GBAS_FIX, COVARIANCE_TYPE_APPROXIMATED);
     5 := (default_epe_quality5 p, STATUS_GBAS_FIX, COVARIANCE_TYPE_APPROXIMATED);
     9 := (default_epe_quality9 p, STATUS_GBAS_FIX, COVARIANCE_TYPE_APPROXIMATED) ]}.

(** The exceptions a call can end with: [OverflowError] from [** 2] and
    [ValueError] from [math.sin] and [math.cos]. *)
Inductive exception : Type :=
  | OverflowError
  | ValueError.

(** How a call ends: it returns a value ([None] is Python's [None],
    [Some b] a [bool]) or it raises. *)
Inductive completion : Type :=
  | Returns (value : option bool)
  | Raises (e : exception).

#[warning="-uniform-inheritance"]
Coercion Returns : option >-> completion.

(** What one call of [add_sentence] does: how it ends, the attributes of
    [self] afterwards, the messages published and the log calls, both in
    order.  A call that raises keeps what it had assigned and published. *)
Record outcome : Type := mkOutcome {
  ret : completion;
  self' : driver;
  published : list publication;
  logged : list log_record
}.

(** ** [add_sentence] *)

(** [s.split(sep)] for a one-character separator: never an empty list. *)
Fixpoint split (sep : ascii) (s : string) : list string :=
  match s with
  | EmptyString => [EmptyString]
  | String c s' =>
      if Ascii.eqb c sep then EmptyString :: split sep s'
      else match split sep s' with
           | [] => [String c EmptyString]
           | w :: ws => String c w :: ws
           end
  end.

Definition backslash : ascii := "\"%char.
Definition CRLF : string := String "013"%char (String "010"%char EmptyString).

(** The prefixes that are not echoed (line 200). *)
Definition echo_suppressed (nmea_str : string) : bool :=
  String.eqb (substring 0 6 nmea_str) "$MXPGN"
  || String.eqb (substring 0 9 nmea_str) "$PSMDSTAT"
  || String.eqb (substring 0 6 nmea_str) "$AGRSA"
  || String.eqb (substring 0 6 nmea_str) "$ERRPM".

(** Lines 193-209: every backslash-separated piece that starts with [$] or
    [!] and has no suppressed prefix is published on [nmea_sentences], before
    the checksum is looked at.  An empty piece raises [IndexError] at
    [sentence[0]], which the inner [except] swallows.  The [print] of the
    same text to the console is not recorded. *)
Definition echo_sentence (now : rostime) (sentence : string)
  : list publication :=
  match sentence with
  | EmptyString => []
  | String c _ =>
      if (Ascii.eqb c "$" || Ascii.eqb c "!") && negb (echo_suppressed sentence)
      then [nmea_pub (HeaderString.mk (mkHeader now "") (sentence +:+ CRLF))]
      else []
  end.

Definition raw_echo (now : rostime) (nmea_string : string)
  : list publication :=
  flat_map (echo_sentence now) (split backslash nmea_string).

(** [current_time_ref] of lines 232-238; [time_ref] is filled in later. *)
Definition new_time_ref (p : params) (current_time : rostime)
    (frame_id : string) (time_ref : rostime) : TimeReference.t :=
  TimeReference.mk (mkHeader current_time frame_id) time_ref
    (match time_ref_source p with
     | Some src => if negb (String.eqb src "") then src else frame_id
     | None => frame_id
     end).

(** Lines 252-255: a fix type that is not a key of the table becomes [-1]. *)
Definition effective_fix_type (p : params) (fix_type : Z) : Z :=
  if decide (is_Some (gps_qualities p !! fix_type)) then fix_type else -1.

(** Lines 224-227: the caller's [timestamp] when it is given and truthy (a
    zero time is not), otherwise the clock. *)
Definition current_time_of (timestamp : option rostime) (now : rostime)
  : rostime :=
  match timestamp with
  | Some t => if rostime_bool t then t else now
  | None => now
  end.

Definition time_not_valid : log_record :=
  logwarn "Time in the NMEA sentence is NOT valid" None.

(** Python's [x ** 2] on a float, over the C library's [pow]
    ([float_pow] of floatobject.c): a finite [x] whose power is infinite is
    an [OverflowError], here [None].  At a NaN and at the infinities CPython
    answers by itself what C's [pow] answers there. *)
Definition float_square (pow : float -> float -> float) (x : float)
  : option float :=
  let r := pow x 2%float in
  if PrimFloat.is_finite x && PrimFloat.is_infinity r then None else Some r.

(** Python's [math.sin] and [math.cos] over the C library's function
    ([math_1] of mathmodule.c): a NaN result for an argument that is none,
    and an infinite result for a finite argument, are a [ValueError], here
    [None]; so it is for an infinite argument, whose sine and cosine C gives
    as NaN. *)
Definition math_1 (func : float -> float) (x : float) : option float :=
  let r := func x in
  if PrimFloat.is_nan r && negb (PrimFloat.is_nan x) then None
  else if PrimFloat.is_infinity r && PrimFloat.is_finite x then None
  else Some r.

Section Driver.

(** The C library's [sin], [cos] and [pow], of which nothing is assumed. *)
Variables math_sin math_cos : float -> float.
Variable float_pow : float -> float -> float.

(** The two collaborators imported at lines 46-47. *)
Variable check_nmea_checksum : string -> bool.
Variable parse_nmea_sentence : string -> option parsed_sentence.

(** Lines 241-299, the branch [not self.use_RMC and 'GGA' in
    parsed_sentence].  The three powers of lines 288-291 are taken in turn,
    after [valid_fix] and the standard deviations are assigned and before
    anything is published: the first that overflows ends the call. *)
Definition add_GGA (p : params) (self : driver) (current_time : rostime)
    (frame_id : string) (data : GGA.data) : outcome :=
  let utc_time := GGA.utc_time data in
  if use_GNSS_time p && math_isnan (fst utc_time) then
    mkOutcome (Some false) self [] [time_not_valid]
  else
    let fix_stamp :=
      if use_GNSS_time p then Time (fst utc_time) (snd utc_time)
      else current_time in
    let fix_type := effective_fix_type p (GGA.fix_type data) in
    let gps_qual := gps_qualities p !!! fix_type in
    let default_epe := gps_qual.1.1 in
    let self := set_valid_fix self (0 <? fix_type) in
    let latitude :=
      if String.eqb (GGA.latitude_direction data) "S"
      then (- GGA.latitude data)%float else GGA.latitude data in
    let longitude :=
      if String.eqb (GGA.longitude_direction data) "W"
      then (- GGA.longitude data)%float else GGA.longitude data in
    let altitude := (GGA.altitude data + GGA.mean_sea_level data)%float in
    let self :=
      if negb (using_receiver_epe self) || PrimFloat.is_nan (lon_std_dev self)
      then set_lon_std_dev self default_epe else self in
    let self :=
      if negb (using_receiver_epe self) || PrimFloat.is_nan (lat_std_dev self)
      then set_lat_std_dev self default_epe else self in
    let self :=
      if negb (using_receiver_epe self) || PrimFloat.is_nan (alt_std_dev self)
      then set_alt_std_dev self (default_epe * 2)%float else self in
    let hdop := GGA.hdop data in
    let overflow := mkOutcome (Raises OverflowError) self [] [] in
    match float_square float_pow (hdop * lon_std_dev self)%float with
    | None => overflow
    | Some covariance0 =>
    match float_square float_pow (hdop * lat_std_dev self)%float with
    | None => overflow
    | Some covariance4 =>
    match float_square float_pow (2 * hdop * alt_std_dev self)%float with
    | None => overflow
    | Some covariance8 =>
    let position_covariance :=
      <[8%nat := covariance8]>
        (<[4%nat := covariance4]>
           (<[0%nat := covariance0]>
              (NavSatFix.position_covariance NavSatFix.new))) in
    let current_fix :=
      NavSatFix.mk (mkHeader fix_stamp frame_id) gps_qual.1.2 SERVICE_GPS
        latitude longitude altitude position_covariance gps_qual.2 in
    if negb (math_isnan (fst utc_time) || use_GNSS_time p) then
      let current_time_ref :=
        new_time_ref p current_time frame_id
          (Time (fst utc_time) (snd utc_time)) in
      mkOutcome None (set_last_valid_fix_time self current_time_ref)
        [fix_pub current_fix; time_ref_pub current_time_ref] []
    else
      mkOutcome None self [fix_pub current_fix] []
    end end end.

(** Lines 303-351, the branch ['RMC' in parsed_sentence].  The sine and
    the cosine of lines 347-350 are taken after the fix is published: a
    [ValueError] there ends the call without a velocity. *)
Definition add_RMC (p : params) (self : driver) (current_time : rostime)
    (frame_id : string) (data : RMC.data) : outcome :=
  let utc_time := RMC.utc_time data in
  if use_GNSS_time p && math_isnan (fst utc_time) then
    mkOutcome (Some false) self [] [time_not_valid]
  else
    let fix_stamp :=
      if use_GNSS_time p then Time (fst utc_time) (snd utc_time)
      else current_time in
    let fix_reports :=
      if use_RMC p then
        let status :=
          if RMC.fix_valid data then STATUS_FIX else STATUS_NO_FIX in
        let latitude :=
          if String.eqb (RMC.latitude_direction data) "S"
          then (- RMC.latitude data)%float else RMC.latitude data in
        let longitude :=
          if String.eqb (RMC.longitude_direction data) "W"
          then (- RMC.longitude data)%float else RMC.longitude data in
        let current_fix :=
          NavSatFix.mk (mkHeader fix_stamp frame_id) status SERVICE_GPS
            latitude longitude nan
            (NavSatFix.position_covariance NavSatFix.new)
            COVARIANCE_TYPE_UNKNOWN in
        if negb (math_isnan (fst utc_time) || use_GNSS_time p) then
          [fix_pub current_fix;
           time_ref_pub (new_time_ref p current_time frame_id
                           (Time (fst utc_time) (snd utc_time)))]
        else [fix_pub current_fix]
      else [] in
    if RMC.fix_valid data then
      let domain_error := mkOutcome (Raises ValueError) self fix_reports [] in
      match math_1 math_sin (RMC.true_course data) with
      | None => domain_error
      | Some sin_course =>
      match math_1 math_cos (RMC.true_course data) with
      | None => domain_error
      | Some cos_course =>
      let current_vel :=
        TwistStamped.mk (mkHeader current_time frame_id)
          (RMC.speed data * sin_course)%float
          (RMC.speed data * cos_course)%float
          0%float 0%float 0%float 0%float in
      mkOutcome None self (fix_reports ++ [vel_pub current_vel]) []
      end end
    else mkOutcome None self fix_reports [].

(** Lines 353-359, the branch ['GST' in parsed_sentence]. *)
Definition add_GST (self : driver) (data : GST.data) : outcome :=
  let self := set_using_receiver_epe self true in
  let self := set_lon_std_dev self (GST.lon_std_dev data) in
  let self := set_lat_std_dev self (GST.lat_std_dev data) in
  let self := set_alt_std_dev self (GST.alt_std_dev data) in
  mkOutcome None self [] [].

(** *** The auxiliary sentence types (lines 360-574)

    Each branch fills a fresh message from the fields and publishes it. *)

Definition header_of (prefix : string) (current_time : rostime)
    (frame_id : string) : list (string * attr) :=
  [(prefix +:+ "header.stamp", AStamp current_time);
   (prefix +:+ "header.frame_id", AFrame frame_id)].

(** [msg.attribute = data[key]]. *)
Definition copy (data : fields) (attribute key : string) : string * attr :=
  (attribute, AField (data key)).

Definition unchanged (self : driver) (pubs : list publication) : outcome :=
  mkOutcome None self pubs [].

Definition add_HDT (self : driver) (current_time : rostime)
    (frame_id : string) (data : fields) : outcome :=
  unchanged self
    [aux_pub "hdt" (AuxMsg "Hdt"
       (header_of "" current_time frame_id ++
        [copy data "heading" "heading";
         copy data "heading_relative" "heading_relative"]))].

Definition add_RSA (self : driver) (current_time : rostime)
    (frame_id : string) (data : fields) : outcome :=
  if truthy (data "rudder_angle") then
    unchanged self
      [aux_pub "rudder_angle" (AuxMsg "Actuators"
         (header_of "" current_time frame_id ++
          [("angles", AAppend (data "rudder_angle"))]))]
  else unchanged self [].

Definition add_GSA (self : driver) (current_time : rostime)
    (frame_id : string) (data : fields) : outcome :=
  unchanged self
    [aux_pub "gsa" (AuxMsg "Gsa"
       ([copy data "mode" "mode_one";
         copy data "fix_type" "fix_type_";
         copy data "sats.sat1" "prn_number_sat1";
         copy data "sats.sat2" "prn_number_sat2";
         copy data "sats.sat3" "prn_number_sat3";
         copy data "sats.sat4" "prn_number_sat4";
         copy data "sats.sat5" "prn_number_sat5";
         copy data "sats.sat6" "prn_number_sat6";
         copy data "sats.sat7" "prn_number_sat7";
         copy data "sats.sat8" "prn_number_sat8";
         copy data "sats.sat9" "prn_number_sat9";
         copy data "sats.sat10" "prn_number_sat10";
         copy data "sats.sat11" "prn_number_sat11";
         copy data "sats.sat12" "prn_number_sat12"] ++
        header_of "satfix." current_time frame_id ++
        header_of "" current_time frame_id ++
        [copy data "satfix.latitude" "pdop";
         copy data "satfix.longitude" "hdop";
         copy data "satfix.altitude" "vdop"]))].

Definition add_ZDA (self : driver) (current_time : rostime)
    (frame_id : string) (data : fields) : outcome :=
  unchanged self
    [aux_pub "zda" (AuxMsg "Timedate"
       (header_of "" current_time frame_id ++
        [copy data "utc" "utc"; copy data "day" "day";
         copy data "month" "month"; copy data "year" "year"]))].

Definition add_RPM (self : driver) (current_time : rostime)
    (frame_id : string) (data : fields) : outcome :=
  unchanged self
    [aux_pub "rpm" (AuxMsg "Engine"
       (header_of "" current_time frame_id ++
        [copy data "engine_status" "engine_status";
         copy data "rpm" "rpm";
         copy data "engine_hours" "engine_hours";
         copy data "propeller_pitch" "propeller_pitch"]))].

Definition add_HDG (self : driver) (current_time : rostime)
    (frame_id : string) (data : fields) : outcome :=
  unchanged self
    [aux_pub "hdg" (AuxMsg "Magnetic"
       (header_of "" current_time frame_id ++
        [copy data "magnetic_sensor_heading" "magnetic_sensor_heading";
         copy data "magnetic_deviation" "magnetic_deviation";
         copy data "magnetic_deviation_direction"
                   "magnetic_deviation_direction";
         copy data "magnetic_variation_degrees"
                   "magnetic_variation_degrees"]))].

Definition add_ROT (self : driver) (current_time : rostime)
    (frame_id : string) (data : fields) : outcome :=
  unchanged self
    [aux_pub "rot" (AuxMsg "Rateofturn"
       (header_of "" current_time frame_id ++
        [copy data "rate_of_turn" "rate_of_turn"]))].

(** One satellite of a GSV sentence: [gsv.svN.*]. *)
Definition gsv_satellite (data : fields) (current_time : rostime)
    (frame_id : string) (sv SV : string) : list (string * attr) :=
  header_of (sv +:+ ".") current_time frame_id ++
  [copy data (sv +:+ ".prn_number") (SV +:+ "_PRN_number");
   copy data (sv +:+ ".elevation") (SV +:+ "_elevation");
   copy data (sv +:+ ".azimuth") (SV +:+ "_azimuth");
   copy data (sv +:+ ".snr") (SV +:+ "_SNR")].

Definition add_GSV (self : driver) (current_time : rostime)
    (frame_id : string) (data : fields) : outcome :=
  unchanged self
    [aux_pub "gsv" (AuxMsg "Gsv"
       (header_of "" current_time frame_id ++
        [copy data "total_gsv_msgs_in_this_cycle"
                   "total_gsv_msgs_in_this_cycle";
         copy data "message_number" "message_number";
         copy data "total_number_of_SVs_visible"
                   "total_number_of_SVs_visible"] ++
        gsv_satellite data current_time frame_id "sv1" "SV1" ++
        gsv_satellite data current_time frame_id "sv2" "SV2" ++
        gsv_satellite data current_time frame_id "sv3" "SV3" ++
        gsv_satellite data current_time frame_id "sv4" "SV4"))].

Definition add_VTG (self : driver) (current_time : rostime)
    (frame_id : string) (data : fields) : outcome :=
  unchanged self
    [aux_pub "vtg" (AuxMsg "Trackmadegood"
       (header_of "" current_time frame_id ++
        [copy data "track_made_good_degrees_true"
                   "track_made_good_degrees_true";
         copy data "track_made_good_degrees_magnetic"
                   "track_made_good_degrees_magnetic";
         copy data "speed_in_knots" "speed_in_knots";
         copy data "speed_in_kph" "speed_in_kph";
         copy data "mode_indicator" "mode_indicator"]))].

Definition add_VBW (self : driver) (current_time : rostime)
    (frame_id : string) (data : fields) : outcome :=
  unchanged self
    [aux_pub "vbw" (AuxMsg "Relativespeeds"
       (header_of "" current_time frame_id ++
        map (fun k => copy data k k)
          ["water_speed_longitudinal_component";
           "water_speed_transverse_component";
           "water_speed_status_data";
           "over_ground_velocity_longitudinal_component";
           "over_ground_velocity_transverse_component";
           "over_ground_velocity_status_data";
           "stern_transverse_water_speed";
           "stern_transverse_water_speed_status_data";
           "stern_transverse_ground_speed";
           "stern_transverse_ground_speed_status_data"]))].

Definition add_GLL (self : driver) (current_time : rostime)
    (frame_id : string) (data : fields) : outcome :=
  unchanged self
    [aux_pub "gll" (AuxMsg "Gll"
       (header_of "" current_time frame_id ++
        [copy data "position.latitude" "latitude";
         copy data "position.longitude" "longitude";
         copy data "latitude_direction" "latitude_direction";
         copy data "longitude_direction" "longitude_direction"] ++
        header_of "position." current_time frame_id ++
        [copy data "utc.utc" "utc"] ++
        header_of "utc." current_time frame_id ++
        [copy data "data_status" "data_status";
         copy data "mode_indicator" "mode_indicator"]))].

(** VDM and VDO fill the same message type, [Vd]. *)
Definition vd_message (current_time : rostime) (frame_id : string)
    (data : fields) : aux_message :=
  AuxMsg "Vd"
    (header_of "" current_time frame_id ++
     map (fun k => copy data k k)
       ["fragments_in_currently_accumulating_message";
        "fragment_number";
        "sequential_message_id";
        "radio_channel_code";
        "data_payload";
        "fill_bits"]).

Definition add_VDM (self : driver) (current_time : rostime)
    (frame_id : string) (data : fields) : outcome :=
  unchanged self [aux_pub "vdm" (vd_message current_time frame_id data)].

Definition add_VDO (self : driver) (current_time : rostime)
    (frame_id : string) (data : fields) : outcome :=
  unchanged self [aux_pub "vdo" (vd_message current_time frame_id data)].

(** *** The chain of branches (lines 240-577)

    A GGA sentence takes the first branch only when [use_RMC] is off;
    with [use_RMC] on it matches no later test and reaches the final
    [else], as does any key without a branch. *)
Definition add_parsed (p : params) (self : driver) (current_time : rostime)
    (frame_id : string) (parsed_sentence : parsed_sentence) : outcome :=
  match parsed_sentence with
  | KeyGGA data =>
      if negb (use_RMC p) then add_GGA p self current_time frame_id data
      else mkOutcome (Some false) self [] []
  | KeyRMC data => add_RMC p self current_time frame_id data
  | KeyGST data => add_GST self data
  | KeyHDT data => add_HDT self current_time frame_id data
  | KeyRSA data => add_RSA self current_time frame_id data
  | KeyGSA data => add_GSA self current_time frame_id data
  | KeyZDA data => add_ZDA self current_time frame_id data
  | KeyRPM data => add_RPM self current_time frame_id data
  | KeyHDG data => add_HDG self current_time frame_id data
  | KeyROT data => add_ROT self current_time frame_id data
  | KeyGSV data => add_GSV self current_time frame_id data
  | KeyVTG data => add_VTG self current_time frame_id data
  | KeyVBW data => add_VBW self current_time frame_id data
  | KeyGLL data => add_GLL self current_time frame_id data
  | KeyVDM data => add_VDM self current_time frame_id data
  | KeyVDO data => add_VDO self current_time frame_id data
  | KeyOther _ _ => mkOutcome (Some false) self [] []
  end.

Definition invalid_checksum (nmea_string : string) : log_record :=
  logwarn "Received a sentence with an invalid checksum. Sentence was: %s"
          (Some nmea_string).

Definition failed_to_parse (nmea_string : string) : log_record :=
  logdebug "Failed to parse NMEA sentence. Sentence was: %s"
           (Some nmea_string).

(** [RosNMEADriver.add_sentence] (lines 180-577).  [now] is what
    [rospy.get_rostime()] reads during the call. *)
Definition add_sentence (p : params) (self : driver) (now : rostime)
    (nmea_string frame_id : string) (timestamp : option rostime)
  : outcome :=
  let echo := raw_echo now nmea_string in
  if negb (check_nmea_checksum nmea_string) then
    mkOutcome (Some false) self echo [invalid_checksum nmea_string]
  else
    match parse_nmea_sentence nmea_string with
    | None =>
        mkOutcome (Some false) self echo [failed_to_parse nmea_string]
    | Some parsed_sentence =>
        let current_time := current_time_of timestamp now in
        let r := add_parsed p self current_time frame_id parsed_sentence in
        mkOutcome (ret r) (self' r) (echo ++ published r) (logged r)
    end.

End Driver.

(** ** Observations on the outcome of a call *)

(** The [NavSatFix] messages among the publications, in order. *)
Definition fixes (pubs : list publication) : list NavSatFix.t :=
  omap (fun pb => match pb with fix_pub m => Some m | _ => None end) pubs.

(** The [TwistStamped] (velocity) messages among the publications. *)
Definition velocities (pubs : list publication) : list TwistStamped.t :=
  omap (fun pb => match pb with vel_pub m => Some m | _ => None end) pubs.

(** A publication on [nmea_sentences], the echo of the raw text. *)
Definition is_echo (pb : publication) : bool :=
  match pb with nmea_pub _ => true | _ => false end.

(** The three standard deviations kept in [self]. *)
Definition std_devs (self : driver) : float * float * float :=
  (lon_std_dev self, lat_std_dev self, alt_std_dev self).

(** A float that is not below zero (a NaN, which compares with nothing, is
    not). *)
Definition not_negative (x : float) : Prop := (x <? 0)%float = false.

Definition std_devs_not_negative (self : driver) : Prop :=
  not_negative (lon_std_dev self) /\ not_negative (lat_std_dev self)
  /\ not_negative (alt_std_dev self).

(** The six configured default errors are not negative. *)
Definition defaults_not_negative (p : params) : Prop :=
  Forall not_negative
    [default_epe_quality0 p; default_epe_quality1 p; default_epe_quality2 p;
     default_epe_quality4 p; default_epe_quality5 p; default_epe_quality9 p].

(** The standard deviations a GST sentence reports are not negative. *)
Definition gst_not_negative (d : GST.data) : Prop :=
  not_negative (GST.lon_std_dev d) /\ not_negative (GST.lat_std_dev d)
  /\ not_negative (GST.alt_std_dev d).

(** The sentence is one the call rejects for its time: GNSS-time mode is on
    and the first component of [utc_time] is a NaN (lines 246-249 and
    305-308; a GGA sentence reaches the test only with [use_RMC] off). *)
Definition time_unusable (p : params) (ps : parsed_sentence) : bool :=
  use_GNSS_time p &&
  match ps with
  | KeyGGA d => negb (use_RMC p) && math_isnan (fst (GGA.utc_time d))
  | KeyRMC d => math_isnan (fst (RMC.utc_time d))
  | _ => false
  end.

(** The time value a GGA or RMC sentence reports, [data['utc_time'][0]]. *)
Definition reported_time (ps : parsed_sentence) : option pynum :=
  match ps with
  | KeyGGA d => Some (fst (GGA.utc_time d))
  | KeyRMC d => Some (fst (RMC.utc_time d))
  | _ => None
  end.

(** The position a GGA or RMC sentence carries: the unsigned latitude and
    longitude, each with its hemisphere letter. *)
Definition position_of (ps : parsed_sentence)
  : option (float * string * float * string) :=
  match ps with
  | KeyGGA d =>
      Some (GGA.latitude d, GGA.latitude_direction d,
            GGA.longitude d, GGA.longitude_direction d)
  | KeyRMC d =>
      Some (RMC.latitude d, RMC.latitude_direction d,
            RMC.longitude d, RMC.longitude_direction d)
  | _ => None
  end.

(** A magnitude with the sign its hemisphere letter gives it. *)
Definition signed (magnitude : float) (direction negative : string) : float :=
  if String.eqb direction negative then (- magnitude)%float else magnitude.

(** The sentence matches one of the branches of the chain. *)
Definition recognized (p : params) (ps : parsed_sentence) : bool :=
  match ps with
  | KeyGGA _ => negb (use_RMC p)
  | KeyOther _ _ => false
  | _ => true
  end.

(** The table entry the GGA branch reads for a sentence, and its default
    error. *)
Definition quality_of (p : params) (d : GGA.data) : gps_quality :=
  gps_qualities p !!! effective_fix_type p (GGA.fix_type d).

Definition default_epe_of (p : params) (d : GGA.data) : float :=
  (quality_of p d).1.1.

(** The standard deviations the GGA branch leaves in [self]: each one on its
    own is replaced when no GST sentence was seen or it is a NaN. *)
Definition gga_std_devs (p : params) (self : driver) (d : GGA.data)
  : float * float * float :=
  let stale x := negb (using_receiver_epe self) || PrimFloat.is_nan x in
  (if stale (lon_std_dev self) then default_epe_of p d else lon_std_dev self,
   if stale (lat_std_dev self) then default_epe_of p d else lat_std_dev self,
   if stale (alt_std_dev self) then (default_epe_of p d * 2)%float
   else alt_std_dev self).

(** A row-major 3x3 covariance with the diagonal [(hdop * lon)^2],
    [(hdop * lat)^2], [(2 * hdop * alt)^2] and zeros elsewhere; [pow] is the
    power function. *)
Definition diagonal_covariance (pow : float -> float -> float) (hdop : float)
    (sd : float * float * float) : list float :=
  [pow (hdop * sd.1.1)%float 2%float; 0%float; 0%float;
   0%float; pow (hdop * sd.1.2)%float 2%float; 0%float;
   0%float; 0%float; pow (2 * hdop * sd.2)%float 2%float].

(** The covariance of lines 288-291 for given standard deviations: the
    three powers on the diagonal, zeros elsewhere; [None] when one of the
    powers overflows. *)
Definition squared_diagonal (pow : float -> float -> float) (hdop : float)
    (sd : float * float * float) : option (list float) :=
  match float_square pow (hdop * sd.1.1)%float with
  | None => None
  | Some c0 =>
      match float_square pow (hdop * sd.1.2)%float with
      | None => None
      | Some c4 =>
          match float_square pow (2 * hdop * sd.2)%float with
          | None => None
          | Some c8 =>
              Some [c0; 0%float; 0%float; 0%float; c4; 0%float;
                    0%float; 0%float; c8]
          end
      end
  end.

(** The standard deviations after a call, by what the sentence decoded to
    ([None]: bad checksum or parse failure). *)
Definition std_devs_after (p : params) (self : driver)
    (decoded : option parsed_sentence) : float * float * float :=
  match decoded with
  | Some (KeyGST d) =>
      (GST.lon_std_dev d, GST.lat_std_dev d, GST.alt_std_dev d)
  | Some (KeyGGA d) =>
      if negb (use_RMC p) && negb (time_unusable p (KeyGGA d))
      then gga_std_devs p self d else std_devs self
  | _ => std_devs self
  end.

(** The string has no character equal to [sep]. *)
Fixpoint free_of (sep : ascii) (s : string) : bool :=
  match s with
  | EmptyString => true
  | String c s' => negb (Ascii.eqb c sep) && free_of sep s'
  end.

(** What the call decodes: nothing on a bad checksum or a parse failure. *)
Definition decode (check_nmea_checksum : string -> bool)
    (parse_nmea_sentence : string -> option parsed_sentence)
    (nmea_string : string) : option parsed_sentence :=
  if check_nmea_checksum nmea_string then parse_nmea_sentence nmea_string
  else None.

(** The sentence is one whose branch assigns attributes of [self]: a GGA
    sentence handled to the end, or a GST sentence. *)
Definition writes_self (p : params) (decoded : option parsed_sentence)
  : bool :=
  match decoded with
  | Some (KeyGGA d) => negb (use_RMC p) && negb (time_unusable p (KeyGGA d))
  | Some (KeyGST _) => true
  | _ => false
  end.

(** The [TimeReference] messages among the publications. *)
Definition time_refs (pubs : list publication) : list TimeReference.t :=
  omap (fun pb => match pb with time_ref_pub m => Some m | _ => None end) pubs.

(** The messages on the auxiliary topics, each with its topic. *)
Definition aux_messages (pubs : list publication)
  : list (string * aux_message) :=
  omap (fun pb => match pb with aux_pub t m => Some (t, m) | _ => None end)
       pubs.

(** The publications that are not echoes of the raw text. *)
Definition reports (pubs : list publication) : list publication :=
  List.filter (fun pb => negb (is_echo pb)) pubs.

(** The pair [data['utc_time']] of a GGA or RMC sentence. *)
Definition utc_time_of (ps : parsed_sentence) : option (pynum * pynum) :=
  match ps with
  | KeyGGA d => Some (GGA.utc_time d)
  | KeyRMC d => Some (RMC.utc_time d)
  | _ => None
  end.


(** The GGA sentence is one the first branch handles to its end. *)
Definition gga_handled (p : params) (d : GGA.data) : bool :=
  negb (use_RMC p) && negb (time_unusable p (KeyGGA d)).

(** A fix type the table maps to a usable fix: a key above zero. *)
Definition usable_fix_type (k : Z) : bool :=
  bool_decide (k ∈ [1; 2; 4; 5; 9]).


(** ** [get_frame_id] *)

Section FrameId.

(** The parameter server: the string parameters [rospy.get_param] finds,
    by resolved name, and [rospy.search_param], which gives the name under
    which a key is found, if it is found. *)
Variable server : gmap string string.
Variable search_param : string -> option string.

(** [rospy.get_param('~frame_id', 'gps')]. *)
Definition base_frame_id : string := default "gps" (server !! "~frame_id").

(** [RosNMEADriver.get_frame_id] (lines 579-597).  [None] is the [KeyError]
    of [rospy.get_param(prefix_param)] for a name that is not set.  The test
    [if prefix_param:] looks at the name found, not at the prefix. *)
Definition get_frame_id : option string :=
  let frame_id := base_frame_id in
  match search_param "tf_prefix" with
  | Some prefix_param =>
      if negb (String.eqb prefix_param "") then
        match server !! prefix_param with
        | Some prefix => Some (prefix +:+ "/" +:+ frame_id)
        | None => None
        end
      else Some frame_id
  | None => Some frame_id
  end.

End FrameId.

(** The exception that ends the call for a sentence its branch does not
    reject, if one does: an overflowing power in the GGA branch, a sine or
    cosine out of its domain for an RMC sentence with a valid fix. *)
Definition raised_by (sin cos : float -> float)
    (pow : float -> float -> float) (p : params) (self : driver)
    (ps : parsed_sentence) : option exception :=
  match ps with
  | KeyGGA d =>
      match squared_diagonal pow (GGA.hdop d) (gga_std_devs p self d) with
      | Some _ => None
      | None => Some OverflowError
      end
  | KeyRMC d =>
      if RMC.fix_valid d then
        match math_1 sin (RMC.true_course d),
              math_1 cos (RMC.true_course d) with
        | Some _, Some _ => None
        | _, _ => Some ValueError
        end
      else None
  | _ => None
  end.

(** The sentence is one for which the call publishes a [NavSatFix]: a GGA
    sentence with [use_RMC] off whose powers do not overflow, or an RMC
    sentence with [use_RMC] on, in both cases not rejected for its time. *)
Definition fix_expected (pow : float -> float -> float) (p : params)
    (self : driver) (ps : parsed_sentence) : bool :=
  match ps with
  | KeyGGA d =>
      negb (use_RMC p) && negb (time_unusable p ps)
      && match squared_diagonal pow (GGA.hdop d) (gga_std_devs p self d) with
         | Some _ => true
         | None => false
         end
  | KeyRMC _ => use_RMC p && negb (time_unusable p ps)
  | _ => false
  end.

(** ** The checksum, for the worked sentences *)

Definition hex_digit (n : N) : ascii :=
  match n with
  | 0 => "0" | 1 => "1" | 2 => "2" | 3 => "3" | 4 => "4" | 5 => "5"
  | 6 => "6" | 7 => "7" | 8 => "8" | 9 => "9" | 10 => "A" | 11 => "B"
  | 12 => "C" | 13 => "D" | 14 => "E" | _ => "F"
  end%N%char.

Definition two_hex_digits (n : N) : string :=
  String (hex_digit (n / 16)) (String (hex_digit (n mod 16)) EmptyString).

Definition upper (c : ascii) : ascii :=
  let n := N_of_ascii c in
  if ((97 <=? n) && (n <=? 122))%N then ascii_of_N (n - 32) else c.

Fixpoint upper_case (s : string) : string :=
  match s with
  | EmptyString => EmptyString
  | String c s' => String (upper c) (upper_case s')
  end.

(** The exclusive-or of the bytes up to the first [*], with the text after
    it; [None] when there is no [*]. *)
Fixpoint xor_to_star (s : string) (acc : N) : option (N * string) :=
  match s with
  | EmptyString => None
  | String c s' =>
      if Ascii.eqb c "*" then Some (acc, s')
      else xor_to_star s' (N.lxor acc (N_of_ascii c))
  end.

(** Modelled from the spec: [check_nmea_checksum] of
    [libnmea_navsat_driver.checksum_utils], which is not among the sources.
    The exclusive-or of all bytes between the leading [$] or [!] and the
    [*], written as two hex digits, is compared without regard to case with
    the checksum field that ends the sentence; a sentence without [*]
    fails. *)
Definition spec_check_nmea_checksum (nmea_sentence : string) : bool :=
  match nmea_sentence with
  | EmptyString => false
  | String _ body =>
      match xor_to_star body 0%N with
      | Some (x, field) => String.eqb (two_hex_digits x) (upper_case field)
      | None => false
      end
  end.

(** A parser given by a table of sentences and what they decode to. *)
Definition parser_of (table : list (string * parsed_sentence))
  : string -> option parsed_sentence :=
  fun nmea_string =>
    snd <$> List.find (fun e => String.eqb (fst e) nmea_string) table.

Section Runs.

Variables math_sin math_cos : float -> float.
Variable float_pow : float -> float -> float.
Variable check_nmea_checksum : string -> bool.
Variable parse_nmea_sentence : string -> option parsed_sentence.
Variable p : params.

(** The states of [self] that sequences of calls of [add_sentence] lead
    to, from the state [__init__] leaves. *)
Inductive reachable : driver -> Prop :=
  | reachable_init : reachable init
  | reachable_call (self : driver) (now : rostime)
      (nmea_string frame_id : string) (timestamp : option rostime) :
      reachable self ->
      reachable
        (self' (add_sentence math_sin math_cos float_pow
                  check_nmea_checksum parse_nmea_sentence p self now
                  nmea_string frame_id timestamp)).

End Runs.

(** ** Worked sentences *)

Module Scenario.

(** Stand-ins for the C library in the closed examples: like C's [sin] and
    [cos], the first two give a NaN at the infinities.  Every theorem below
    holds whatever these functions are. *)
Definition any_sin (x : float) : float := (x - x * x * x / 6)%float.
Definition any_cos (x : float) : float := (1 - x * x / 2 + 0 * x)%float.
Definition any_pow (x y : float) : float := (x * x)%float.

Definition gga_sentence : string :=
  "$GPGGA,123519,4807.038,N,01131.000,E,1,08,0.9,545.4,M,46.9,M,,*47".
Definition gga_altered_checksum : string :=
  "$GPGGA,123519,4807.038,N,01131.000,E,1,08,0.9,545.4,M,46.9,M,,*48".
Definition gga_without_time : string :=
  "$GPGGA,,4807.038,N,01131.000,E,1,08,0.9,545.4,M,46.9,M,,*4A".
Definition gga_south_west_quality3 : string :=
  "$GPGGA,123519,4807.038,S,01131.000,W,3,08,0.9,545.4,M,46.9,M,,*4A".
Definition gst_sentence : string :=
  "$GPGST,172814.0,0.006,0.023,0.020,273.6,0.023,0.020,0.031*6A".
Definition gst_without_lon : string :=
  "$GPGST,172814.0,0.006,0.023,0.020,273.6,0.023,,0.031*46".
Definition gst_negative_lon : string :=
  "$GPGST,172814.0,0.006,0.023,0.020,273.6,0.023,-0.020,0.031*47".
Definition rmc_sentence : string :=
  "$GPRMC,123519,A,4807.038,N,01131.000,E,022.4,084.4,230394,003.1,W*6A".
Definition rmc_void : string :=
  "$GPRMC,123519,V,4807.038,N,01131.000,E,022.4,084.4,230394,003.1,W*7D".
Definition rmc_without_time : string :=
  "$GPRMC,,A,4807.038,N,01131.000,E,022.4,084.4,,003.1,W*68".
Definition rmc_infinite_course : string :=
  "$GPRMC,123519,A,4807.038,N,01131.000,E,022.4,inf,230394,003.1,W*2D".
Definition gga_huge_hdop : string :=
  "$GPGGA,123519,4807.038,N,01131.000,E,1,08,1e200,545.4,M,46.9,M,,*06".

Definition no_time : pynum * pynum := (PyFloat nan, PyFloat nan).
Definition time_123519 : pynum * pynum := (PyInt 45319, PyInt 0).
Definition time_230394_123519 : pynum * pynum := (PyInt 764426119, PyInt 0).

Definition gga_fields (utc_time : pynum * pynum) (lat_dir lon_dir : string)
    (fix_type : Z) : GGA.data :=
  GGA.mk utc_time fix_type 48.1173%float lat_dir 11.516666666666667%float
         lon_dir 545.4%float 46.9%float 0.9%float.

Definition rmc_fields (utc_time : pynum * pynum) (fix_valid : bool)
  : RMC.data :=
  RMC.mk utc_time fix_valid 48.1173%float "N" 11.516666666666667%float "E"
         11.523552%float 1.4730579%float.

(** What the parser makes of the worked sentences. *)
Definition decoded : list (string * parsed_sentence) :=
  [(gga_sentence, KeyGGA (gga_fields time_123519 "N" "E" 1));
   (gga_altered_checksum, KeyGGA (gga_fields time_123519 "N" "E" 1));
   (gga_without_time, KeyGGA (gga_fields no_time "N" "E" 1));
   (gga_south_west_quality3, KeyGGA (gga_fields time_123519 "S" "W" 3));
   (gst_sentence, KeyGST (GST.mk 0.020%float 0.023%float 0.031%float));
   (gst_without_lon, KeyGST (GST.mk nan 0.023%float 0.031%float));
   (rmc_sentence, KeyRMC (rmc_fields time_230394_123519 true));
   (rmc_void, KeyRMC (rmc_fields time_230394_123519 false));
   (rmc_without_time, KeyRMC (rmc_fields no_time true));
   (rmc_infinite_course,
    KeyRMC (RMC.mk time_230394_123519 true 48.1173%float "N"
                   11.516666666666667%float "E" 11.523552%float infinity));
   (gga_huge_hdop,
    KeyGGA (GGA.mk time_123519 1 48.1173%float "N" 11.516666666666667%float
                   "E" 545.4%float 46.9%float 1e200%float))].

Definition gnss_time_params : params :=
  mkParams true None false 1000000%float 4.0%float 0.1%float 0.02%float
           4.0%float 3.0%float.
Definition rmc_params : params :=
  mkParams false None true 1000000%float 4.0%float 0.1%float 0.02%float
           4.0%float 3.0%float.

Definition now : rostime := Time (PyInt 1700000000) (PyInt 0).

(** The same parser, for a receiver that also sends a GST sentence with a
    negative field. *)
Definition decoded_with_negative : list (string * parsed_sentence) :=
  (gst_negative_lon,
   KeyGST (GST.mk (-0.020)%float 0.023%float 0.031%float)) :: decoded.

(** One call, with the arrival time as the stamp and the frame [gps]. *)
Definition call_with (table : list (string * parsed_sentence)) (p : params)
    (self : driver) (nmea_string : string) : outcome :=
  add_sentence any_sin any_cos any_pow spec_check_nmea_checksum
               (parser_of table) p self now nmea_string "gps" None.

Definition call : params -> driver -> string -> outcome :=
  call_with decoded.

End Scenario.

(** Sentences of the auxiliary types, and a parameter server. *)
Module Auxiliary.

Definition rsa_sentence : string := "$AGRSA,10.5,A,,V*4B".
Definition rsa_centred : string := "$AGRSA,0.0,A,,V*7F".

Definition rsa_fields (angle : float) : fields :=
  fun key =>
    if String.eqb key "rudder_angle" then VNum (PyFloat angle) else VNone.

Definition decoded : list (string * parsed_sentence) :=
  [(rsa_sentence, KeyRSA (rsa_fields 10.5%float));
   (rsa_centred, KeyRSA (rsa_fields 0%float))].

Definition call (p : params) (self : driver) (nmea_string : string)
  : outcome :=
  add_sentence Scenario.any_sin Scenario.any_cos Scenario.any_pow
               spec_check_nmea_checksum (parser_of decoded) p self
               Scenario.now nmea_string "gps" None.

(** A parameter server with a [tf_prefix] set at the top level. *)
Definition server : gmap string string := {[ "/tf_prefix" := "robot" ]}.

Definition search_param (key : string) : option string :=
  if String.eqb key "tf_prefix" then Some "/tf_prefix" else None.

(** The fix of the worked GGA sentence, first after [__init__]. *)
Definition gga_fix : NavSatFix.t :=
  NavSatFix.mk (mkHeader Scenario.now "gps") STATUS_FIX SERVICE_GPS
    48.1173%float 11.516666666666667%float 592.29999999999995%float
    [12.960000000000001%float; 0%float; 0%float; 0%float;
     12.960000000000001%float; 0%float; 0%float; 0%float;
     207.36000000000001%float]
    COVARIANCE_TYPE_APPROXIMATED.

(** The fix of the void RMC sentence. *)
Definition rmc_void_fix : NavSatFix.t :=
  NavSatFix.mk (mkHeader Scenario.now "gps") STATUS_NO_FIX SERVICE_GPS
    48.1173%float 11.516666666666667%float nan (replicate 9 0%float)
    COVARIANCE_TYPE_UNKNOWN.

(** The fix of the worked GGA sentence after the worked GST sentence. *)
Definition gga_fix_after_gst : NavSatFix.t :=
  NavSatFix.mk (mkHeader Scenario.now "gps") STATUS_FIX SERVICE_GPS
    48.1173%float 11.516666666666667%float 592.29999999999995%float
    (diagonal_covariance Scenario.any_pow 0.9%float
       (0.020%float, 0.023%float, 0.031%float))
    COVARIANCE_TYPE_APPROXIMATED.

End Auxiliary.

Example checksums_of_worked_sentences :
  forallb (fun s => Bool.eqb (spec_check_nmea_checksum s)
                      (negb (String.eqb s Scenario.gga_altered_checksum)))
          (map fst Scenario.decoded_with_negative) = true.
Proof. vm_compute. reflexivity. Qed.

(** * Properties *)

(** ** The echo *)

Lemma fixes_app (l k : list publication) : (fixes (l ++ k) = fixes l ++ fixes k)%list.
Proof. apply omap_app. Qed.

Lemma velocities_app (l k : list publication) :
  (velocities (l ++ k) = velocities l ++ velocities k)%list.
Proof. apply omap_app. Qed.

Lemma echo_sentence_cases (now : rostime) (sentence : string) :
  echo_sentence now sentence = []
  \/ exists m, echo_sentence now sentence = [nmea_pub m].
Proof.
  destruct sentence as [|c rest]; cbn [echo_sentence]; [now left|].
  destruct (_ && _); [right; eauto | now left].
Qed.

Lemma raw_echo_is_echo (now : rostime) (nmea_string : string) :
  forallb is_echo (raw_echo now nmea_string) = true.
Proof.
  unfold raw_echo.
  induction (split backslash nmea_string) as [|w ws IH]; [reflexivity|].
  cbn [flat_map]. rewrite forallb_app, IH, andb_true_r.
  destruct (echo_sentence_cases now w) as [-> | [m ->]]; reflexivity.
Qed.

Lemma fixes_of_echo (pubs : list publication) :
  forallb is_echo pubs = true -> fixes pubs = [].
Proof.
  induction pubs as [|pb pubs IH]; [reflexivity|].
  cbn [forallb]. intros [Hpb Hrest]%andb_prop.
  destruct pb; try discriminate. cbn. now apply IH.
Qed.

Lemma velocities_of_echo (pubs : list publication) :
  forallb is_echo pubs = true -> velocities pubs = [].
Proof.
  induction pubs as [|pb pubs IH]; [reflexivity|].
  cbn [forallb]. intros [Hpb Hrest]%andb_prop.
  destruct pb; try discriminate. cbn. now apply IH.
Qed.

Lemma fixes_raw_echo (now : rostime) (nmea_string : string) :
  fixes (raw_echo now nmea_string) = [].
Proof. apply fixes_of_echo, raw_echo_is_echo. Qed.

Lemma velocities_raw_echo (now : rostime) (nmea_string : string) :
  velocities (raw_echo now nmea_string) = [].
Proof. apply velocities_of_echo, raw_echo_is_echo. Qed.

(** ** The quality table *)

(** The table, read as the chain of comparisons a lookup amounts to. *)
Lemma gps_qualities_lookup (p : params) (k : Z) :
  gps_qualities p !! k =
    if decide (k = -1) then
      Some (default_epe_quality0 p, STATUS_NO_FIX, COVARIANCE_TYPE_UNKNOWN)
    else if decide (k = 0) then
      Some (default_epe_quality0 p, STATUS_NO_FIX, COVARIANCE_TYPE_UNKNOWN)
    else if decide (k = 1) then
      Some (default_epe_quality1 p, STATUS_FIX, COVARIANCE_TYPE_APPROXIMATED)
    else if decide (k = 2) then
      Some (default_epe_quality2 p, STATUS_SBAS_FIX,
            COVARIANCE_TYPE_APPROXIMATED)
    else if decide (k = 4) then
      Some (default_epe_quality4 p, STATUS_GBAS_FIX,
            COVARIANCE_TYPE_APPROXIMATED)
    else if decide (k = 5) then
      Some (default_epe_quality5 p, STATUS_GBAS_FIX,
            COVARIANCE_TYPE_APPROXIMATED)
    else if decide (k = 9) then
      Some (default_epe_quality9 p, STATUS_GBAS_FIX,
            COVARIANCE_TYPE_APPROXIMATED)
    else None.
Proof.
  unfold gps_qualities.
  repeat (rewrite lookup_insert; case_decide; subst;
          [repeat case_decide; first [reflexivity | lia]|]).
  rewrite lookup_singleton.
  repeat case_decide; subst; first [reflexivity | lia].
Qed.

Lemma gps_qualities_unknown (p : params) (k : Z) :
  k ∉ [-1; 0; 1; 2; 4; 5; 9] -> gps_qualities p !! k = None.
Proof.
  intros Hk. rewrite gps_qualities_lookup.
  repeat case_decide; subst; try reflexivity; exfalso; apply Hk;
    repeat constructor.
Qed.

Lemma effective_fix_type_unknown (p : params) (k : Z) :
  gps_qualities p !! k = None -> effective_fix_type p k = -1.
Proof.
  intros Hk. unfold effective_fix_type. rewrite Hk.
  case_decide as H; [destruct H; discriminate | reflexivity].
Qed.

Lemma effective_fix_type_minus_one (p : params) :
  effective_fix_type p (-1) = -1.
Proof. unfold effective_fix_type. case_decide; reflexivity. Qed.

(** After the fallback the subscript [self.gps_qualities[fix_type]] always
    finds an entry, and its default error is one of the six parameters. *)
Lemma default_epe_of_cases (p : params) (d : GGA.data) :
  default_epe_of p d ∈
    [default_epe_quality0 p; default_epe_quality1 p; default_epe_quality2 p;
     default_epe_quality4 p; default_epe_quality5 p; default_epe_quality9 p].
Proof.
  unfold default_epe_of, quality_of, effective_fix_type.
  set (k := GGA.fix_type d).
  case_decide as H.
  - rewrite lookup_total_alt. rewrite gps_qualities_lookup in *.
    repeat case_decide; cbn; try (destruct H; discriminate);
      repeat first [apply list_elem_of_here | apply list_elem_of_further].
  - rewrite lookup_total_alt, gps_qualities_lookup. cbn.
    apply list_elem_of_here.
Qed.

(** ** Floats that are not negative *)

Lemma SFltb_zero (x : spec_float) :
  SFltb x (S754_zero false) = false <->
  match x with
  | S754_infinity s | S754_finite s _ _ => s = false
  | _ => True
  end.
Proof.
  unfold SFltb; destruct x as [s|s| |s m e]; cbn; try tauto;
    destruct s; cbn; split; intros; congruence.
Qed.

Lemma binary_round_aux_positive (prec emax m e : Z) (l : location) :
  match binary_round_aux prec emax false m e l with
  | S754_infinity s | S754_finite s _ _ => s = false
  | _ => True
  end.
Proof.
  unfold binary_round_aux.
  destruct (shr_fexp prec emax m e l) as [mrs e1].
  destruct (shr_fexp prec emax _ e1 loc_Exact) as [mrs2 e2].
  destruct (shr_m mrs2); auto.
  destruct (_ <=? _)%Z; auto.
Qed.

(** Doubling, as [default_epe * 2] does, never makes a float negative. *)
Lemma not_negative_double (d : float) :
  not_negative d -> not_negative (d * 2)%float.
Proof.
  unfold not_negative. rewrite !ltb_spec, mul_spec.
  change (Prim2SF 0) with (S754_zero false).
  change (Prim2SF 2) with (S754_finite false 4503599627370496 (-51)).
  rewrite !SFltb_zero.
  destruct (Prim2SF d) as [s|s| |s m e]; cbn; auto.
  all: intros ->; cbn; auto; apply binary_round_aux_positive.
Qed.

Lemma not_negative_nan : not_negative nan.
Proof. reflexivity. Qed.

(** ** The powers, the sine and the cosine *)

Lemma float_square_Some (pow : float -> float -> float) (x r : float) :
  float_square pow x = Some r -> r = pow x 2%float.
Proof. unfold float_square. destruct (_ && _); congruence. Qed.


(** When no power overflows the covariance is the diagonal one. *)
Lemma squared_diagonal_Some (pow : float -> float -> float) (hdop : float)
    (sd : float * float * float) (cov : list float) :
  squared_diagonal pow hdop sd = Some cov ->
  cov = diagonal_covariance pow hdop sd.
Proof.
  unfold squared_diagonal, diagonal_covariance.
  destruct (float_square pow (hdop * sd.1.1)) as [c0|] eqn:H0;
    [|discriminate].
  destruct (float_square pow (hdop * sd.1.2)) as [c4|] eqn:H4;
    [|discriminate].
  destruct (float_square pow (2 * hdop * sd.2)) as [c8|] eqn:H8;
    [|discriminate].
  apply float_square_Some in H0, H4, H8. congruence.
Qed.

(** Unfolding the driver's functions. *)
Ltac open_add_sentence := unfold add_sentence.
Ltac open_add_parsed := cbn [add_parsed].
Ltac open_add_GGA := unfold add_GGA.
Ltac open_add_RMC := unfold add_RMC.

(** The case analysis every fact about the GGA branch goes through: the two
    tests on the time, the three on the standard deviations, the three
    powers. *)
Ltac gga_cases p self d :=
  open_add_GGA; cbv zeta;
  change (gps_qualities p !!! effective_fix_type p (GGA.fix_type d))
    with (quality_of p d);
  generalize (quality_of p d); intros ?q;
  destruct self as [?vf ure ?lon ?lat ?alt ?lvf];
  cbn [valid_fix using_receiver_epe lon_std_dev lat_std_dev alt_std_dev
       last_valid_fix_time set_valid_fix];
  destruct (use_GNSS_time p), (math_isnan (GGA.utc_time d).1);
  cbn -[effective_fix_type Z.ltb new_time_ref float_square];
  try reflexivity;
  destruct ure;
  cbn -[effective_fix_type Z.ltb new_time_ref float_square];
  repeat match goal with
         | |- context [PrimFloat.is_nan ?x] =>
             destruct (PrimFloat.is_nan x);
             cbn -[effective_fix_type Z.ltb new_time_ref float_square]
         end;
  repeat match goal with
         | |- context [float_square ?pw ?x] =>
             destruct (float_square pw x);
             cbn -[effective_fix_type Z.ltb new_time_ref float_square]
         end;
  try reflexivity.

(** The same for the RMC branch: the tests on the time, the position source
    and the validity flag, then the sine and the cosine. *)
Ltac rmc_cases p d :=
  open_add_RMC;
  destruct (use_GNSS_time p), (math_isnan (RMC.utc_time d).1), (use_RMC p),
    (RMC.fix_valid d);
  cbn -[math_1 new_time_ref]; try reflexivity;
  repeat match goal with
         | |- context [math_1 ?f ?x] =>
             destruct (math_1 f x); cbn -[math_1 new_time_ref]
         end;
  try reflexivity.

Section Properties.

Variables math_sin math_cos : float -> float.
Variable float_pow : float -> float -> float.
Variable check_nmea_checksum : string -> bool.
Variable parse_nmea_sentence : string -> option parsed_sentence.

Abbreviation add_sentence :=
  (add_sentence math_sin math_cos float_pow check_nmea_checksum
                parse_nmea_sentence).
Abbreviation add_parsed := (add_parsed math_sin math_cos float_pow).
Abbreviation add_GGA := (add_GGA float_pow).
Abbreviation add_RMC := (add_RMC math_sin math_cos).
Abbreviation reachable :=
  (reachable math_sin math_cos float_pow check_nmea_checksum
             parse_nmea_sentence).

(** A sentence that passes the checksum and decodes goes through the
    chain of branches, after the echo. *)
Lemma add_sentence_decoded (p : params) (self : driver) (now : rostime)
    (nmea_string frame_id : string) (timestamp : option rostime)
    (ps : parsed_sentence) :
  check_nmea_checksum nmea_string = true ->
  parse_nmea_sentence nmea_string = Some ps ->
  let r := add_parsed p self (current_time_of timestamp now) frame_id ps in
  add_sentence p self now nmea_string frame_id timestamp =
    mkOutcome (ret r) (self' r)
              (raw_echo now nmea_string ++ published r) (logged r).
Proof. intros Hc Hp. open_add_sentence. now rewrite Hc, Hp. Qed.

Lemma add_sentence_bad_checksum (p : params) (self : driver)
    (now : rostime) (nmea_string frame_id : string)
    (timestamp : option rostime) :
  check_nmea_checksum nmea_string = false ->
  add_sentence p self now nmea_string frame_id timestamp =
    mkOutcome (Some false) self (raw_echo now nmea_string)
              [invalid_checksum nmea_string].
Proof. intros Hc. open_add_sentence. now rewrite Hc. Qed.

Lemma add_sentence_not_parsed (p : params) (self : driver)
    (now : rostime) (nmea_string frame_id : string)
    (timestamp : option rostime) :
  check_nmea_checksum nmea_string = true ->
  parse_nmea_sentence nmea_string = None ->
  add_sentence p self now nmea_string frame_id timestamp =
    mkOutcome (Some false) self (raw_echo now nmea_string)
              [failed_to_parse nmea_string].
Proof. intros Hc Hp. open_add_sentence. now rewrite Hc, Hp. Qed.

(** What the chain of branches returns. *)
Lemma add_parsed_ret (p : params) (self : driver) (current_time : rostime)
    (frame_id : string) (ps : parsed_sentence) :
  ret (add_parsed p self current_time frame_id ps) =
    if negb (recognized p ps) || time_unusable p ps then Some false
    else match raised_by math_sin math_cos float_pow p self ps with
         | Some e => Raises e
         | None => None
         end.
Proof.
  unfold recognized, time_unusable, raised_by.
  destruct ps; open_add_parsed;
    rewrite ?andb_false_r, ?orb_false_r; try reflexivity.
  - destruct (use_RMC p); [reflexivity|]. cbn [negb andb orb].
    unfold squared_diagonal, gga_std_devs, default_epe_of.
    gga_cases p self d.
  - open_add_RMC.
    destruct (use_GNSS_time p), (math_isnan (RMC.utc_time d).1);
      cbn [andb orb negb fst]; try reflexivity;
      destruct (RMC.fix_valid d); try reflexivity;
      destruct (math_1 math_sin _); try reflexivity;
      destruct (math_1 math_cos _); reflexivity.
  - unfold add_RSA. destruct (truthy _); reflexivity.
Qed.

(** A sentence rejected by a branch leaves [self] alone and publishes
    nothing of its own. *)
Lemma add_parsed_rejected (p : params) (self : driver)
    (current_time : rostime) (frame_id : string) (ps : parsed_sentence) :
  negb (recognized p ps) || time_unusable p ps = true ->
  self' (add_parsed p self current_time frame_id ps) = self
  /\ published (add_parsed p self current_time frame_id ps) = [].
Proof.
  unfold recognized, time_unusable.
  destruct ps; open_add_parsed;
    rewrite ?andb_false_r, ?orb_false_r; try discriminate;
    try (intros _; split; reflexivity).
  - open_add_GGA.
    destruct (use_RMC p), (use_GNSS_time p),
      (math_isnan (GGA.utc_time d).1); cbn [negb andb orb fst];
      try discriminate; intros _; split; reflexivity.
  - open_add_RMC.
    destruct (use_GNSS_time p), (math_isnan (RMC.utc_time d).1);
      cbn [negb andb orb fst]; try discriminate; intros _; split; reflexivity.
Qed.

(** *** Return value *)

(** C10: [add_sentence] never returns [True].  It returns [False] on a
    checksum failure, on a parse failure, on a sentence no branch matches
    and on a GGA or RMC sentence whose time is unusable in GNSS-time mode.
    For a recognised sentence that is not rejected, the call ends in the
    exception [raised_by] names when there is one (an [OverflowError] from
    the powers of the GGA branch, a [ValueError] from the sine or cosine of
    the RMC branch) and returns [None], which is falsy as well, when there
    is none. *)
Theorem add_sentence_never_returns_True (p : params) (self : driver)
    (now : rostime) (nmea_string frame_id : string)
    (timestamp : option rostime) :
  let r := add_sentence p self now nmea_string frame_id timestamp in
  ret r <> Some true
  /\ ret r =
       if negb (check_nmea_checksum nmea_string) then Some false
       else match parse_nmea_sentence nmea_string with
            | None => Some false
            | Some ps =>
                if negb (recognized p ps) || time_unusable p ps
                then Some false
                else match raised_by math_sin math_cos float_pow p self ps
                     with
                     | Some e => Raises e
                     | None => None
                     end
            end.
Proof.
  cbv zeta.
  destruct (check_nmea_checksum nmea_string) eqn:Hc.
  - destruct (parse_nmea_sentence nmea_string) as [ps|] eqn:Hp.
    + rewrite (add_sentence_decoded p self now _ frame_id timestamp ps Hc Hp).
      cbn [ret negb]. rewrite add_parsed_ret.
      destruct (_ || _); [split; congruence|].
      destruct (raised_by _ _ _ _ _ _); split; congruence.
    + rewrite add_sentence_not_parsed by assumption.
      split; [discriminate | reflexivity].
  - rewrite add_sentence_bad_checksum by assumption.
    split; [discriminate | reflexivity].
Qed.

(** *** Rejected sentences *)

(** C4, as amended: a sentence whose checksum does not validate makes
    [add_sentence] return [False], after a warning, with [self] unchanged;
    its only publications are the echoes of the raw text on
    [nmea_sentences], which are made before the checksum is looked at. *)
Theorem bad_checksum_only_echoes (p : params) (self : driver)
    (now : rostime) (nmea_string frame_id : string)
    (timestamp : option rostime) :
  check_nmea_checksum nmea_string = false ->
  let r := add_sentence p self now nmea_string frame_id timestamp in
  ret r = Some false
  /\ self' r = self
  /\ published r = raw_echo now nmea_string
  /\ forallb is_echo (published r) = true
  /\ logged r = [invalid_checksum nmea_string].
Proof.
  intros Hc r. subst r. rewrite add_sentence_bad_checksum by assumption.
  cbn. repeat split. apply raw_echo_is_echo.
Qed.

(** C5, as amended: in GNSS-time mode a GGA or RMC sentence whose reported
    time is a NaN makes [add_sentence] return [False] with [self]
    unchanged; its only publications are the echoes of the raw text. *)
Theorem unusable_time_only_echoes (p : params) (self : driver)
    (now : rostime) (nmea_string frame_id : string)
    (timestamp : option rostime) (ps : parsed_sentence) (t : pynum) :
  check_nmea_checksum nmea_string = true ->
  parse_nmea_sentence nmea_string = Some ps ->
  reported_time ps = Some t ->
  use_GNSS_time p = true ->
  math_isnan t = true ->
  let r := add_sentence p self now nmea_string frame_id timestamp in
  ret r = Some false
  /\ self' r = self
  /\ published r = raw_echo now nmea_string
  /\ forallb is_echo (published r) = true.
Proof.
  intros Hc Hp Ht Hg Hnan r. subst r.
  rewrite (add_sentence_decoded p self now _ frame_id timestamp ps Hc Hp).
  cbn [ret self' published].
  assert (Hrej : negb (recognized p ps) || time_unusable p ps = true).
  { unfold recognized, time_unusable. rewrite Hg.
    destruct ps; try discriminate; injection Ht as <-; rewrite Hnan;
      destruct (use_RMC p); reflexivity. }
  rewrite add_parsed_ret, Hrej.
  destruct (add_parsed_rejected p self (current_time_of timestamp now)
              frame_id ps Hrej) as [-> ->].
  rewrite app_nil_r. repeat split. apply raw_echo_is_echo.
Qed.

(** *** GST sentences *)

(** C6: handling the same GST sentence a second time leaves [self] as the
    first handling left it.  The GST branch sets [using_receiver_epe] and
    overwrites the three standard deviations with the sentence's, and
    publishes nothing: the call publishes the echoes of the raw text
    only. *)
Theorem gst_twice_is_gst_once (p : params) (self : driver)
    (now1 now2 : rostime) (nmea_string frame1 frame2 : string)
    (timestamp1 timestamp2 : option rostime) (d : GST.data) :
  check_nmea_checksum nmea_string = true ->
  parse_nmea_sentence nmea_string = Some (KeyGST d) ->
  let r1 := add_sentence p self now1 nmea_string frame1 timestamp1 in
  let r2 := add_sentence p (self' r1) now2 nmea_string frame2 timestamp2 in
  self' r2 = self' r1
  /\ using_receiver_epe (self' r1) = true
  /\ std_devs (self' r1) =
       (GST.lon_std_dev d, GST.lat_std_dev d, GST.alt_std_dev d)
  /\ published (add_GST self d) = []
  /\ published r1 = raw_echo now1 nmea_string.
Proof.
  intros Hc Hp r1 r2. subst r1 r2.
  rewrite !(add_sentence_decoded _ _ _ _ _ _ _ Hc Hp).
  cbn. rewrite app_nil_r. repeat split.
Qed.

(** *** What the GGA and RMC branches publish and write *)

Lemma add_GGA_fixes (p : params) (self : driver) (current_time : rostime)
    (frame_id : string) (d : GGA.data) (cov : list float) :
  squared_diagonal float_pow (GGA.hdop d) (gga_std_devs p self d)
    = Some cov ->
  fixes (published (add_GGA p self current_time frame_id d)) =
    if use_GNSS_time p && math_isnan (GGA.utc_time d).1 then []
    else
      let q := quality_of p d in
      [NavSatFix.mk
         (mkHeader (if use_GNSS_time p
                    then Time (GGA.utc_time d).1 (GGA.utc_time d).2
                    else current_time) frame_id)
         q.1.2 SERVICE_GPS
         (signed (GGA.latitude d) (GGA.latitude_direction d) "S")
         (signed (GGA.longitude d) (GGA.longitude_direction d) "W")
         (GGA.altitude d + GGA.mean_sea_level d)%float
         (diagonal_covariance float_pow (GGA.hdop d) (gga_std_devs p self d))
         q.2].
Proof.
  intros Hsq.
  assert (Hcov := squared_diagonal_Some _ _ _ _ Hsq). revert Hsq Hcov.
  unfold squared_diagonal, gga_std_devs, default_epe_of, signed.
  gga_cases p self d; try discriminate; intros [= <-] ->; reflexivity.
Qed.

(** When a power overflows the GGA branch publishes nothing. *)
Lemma add_GGA_overflow (p : params) (self : driver) (current_time : rostime)
    (frame_id : string) (d : GGA.data) :
  squared_diagonal float_pow (GGA.hdop d) (gga_std_devs p self d) = None ->
  use_GNSS_time p && math_isnan (GGA.utc_time d).1 = false ->
  let r := add_GGA p self current_time frame_id d in
  ret r = Raises OverflowError /\ published r = [] /\ logged r = [].
Proof.
  unfold squared_diagonal, gga_std_devs, default_epe_of.
  gga_cases p self d; try discriminate; intros _ _; repeat split.
Qed.

Lemma add_GGA_fixes_cases (p : params) (self : driver)
    (current_time : rostime) (frame_id : string) (d : GGA.data) :
  fixes (published (add_GGA p self current_time frame_id d)) =
    match squared_diagonal float_pow (GGA.hdop d) (gga_std_devs p self d) with
    | None => []
    | Some _ =>
        if use_GNSS_time p && math_isnan (GGA.utc_time d).1 then []
        else
          let q := quality_of p d in
          [NavSatFix.mk
             (mkHeader (if use_GNSS_time p
                        then Time (GGA.utc_time d).1 (GGA.utc_time d).2
                        else current_time) frame_id)
             q.1.2 SERVICE_GPS
             (signed (GGA.latitude d) (GGA.latitude_direction d) "S")
             (signed (GGA.longitude d) (GGA.longitude_direction d) "W")
             (GGA.altitude d + GGA.mean_sea_level d)%float
             (diagonal_covariance float_pow (GGA.hdop d)
                (gga_std_devs p self d))
             q.2]
    end.
Proof.
  destruct (squared_diagonal float_pow (GGA.hdop d) (gga_std_devs p self d))
    as [cov|] eqn:Hsq.
  - now apply add_GGA_fixes with (cov := cov).
  - destruct (use_GNSS_time p && math_isnan (GGA.utc_time d).1) eqn:Htime.
    + open_add_GGA. cbv zeta. now rewrite Htime.
    + now destruct (add_GGA_overflow p self current_time frame_id d Hsq
                      Htime) as (_ & -> & _).
Qed.

Lemma add_GGA_velocities (p : params) (self : driver)
    (current_time : rostime) (frame_id : string) (d : GGA.data) :
  velocities (published (add_GGA p self current_time frame_id d)) = [].
Proof. gga_cases p self d. Qed.

Lemma add_GGA_self (p : params) (self : driver) (current_time : rostime)
    (frame_id : string) (d : GGA.data) :
  let r := add_GGA p self current_time frame_id d in
  if use_GNSS_time p && math_isnan (GGA.utc_time d).1 then self' r = self
  else std_devs (self' r) = gga_std_devs p self d
       /\ valid_fix (self' r) = (0 <? effective_fix_type p (GGA.fix_type d))
       /\ using_receiver_epe (self' r) = using_receiver_epe self.
Proof.
  unfold gga_std_devs, default_epe_of, std_devs.
  gga_cases p self d; repeat split.
Qed.

Lemma add_RMC_fixes (p : params) (self : driver) (current_time : rostime)
    (frame_id : string) (d : RMC.data) :
  fixes (published (add_RMC p self current_time frame_id d)) =
    if use_GNSS_time p && math_isnan (RMC.utc_time d).1 then []
    else if use_RMC p then
      [NavSatFix.mk
         (mkHeader (if use_GNSS_time p
                    then Time (RMC.utc_time d).1 (RMC.utc_time d).2
                    else current_time) frame_id)
         (if RMC.fix_valid d then STATUS_FIX else STATUS_NO_FIX)
         SERVICE_GPS
         (signed (RMC.latitude d) (RMC.latitude_direction d) "S")
         (signed (RMC.longitude d) (RMC.longitude_direction d) "W")
         nan (replicate 9 0%float) COVARIANCE_TYPE_UNKNOWN]
    else [].
Proof.
  open_add_RMC. unfold signed.
  destruct (use_GNSS_time p), (math_isnan (RMC.utc_time d).1), (use_RMC p),
    (RMC.fix_valid d); try reflexivity;
    cbn -[math_1]; destruct (math_1 math_sin _); try reflexivity;
    destruct (math_1 math_cos _); reflexivity.
Qed.

Lemma add_RMC_velocities (p : params) (self : driver)
    (current_time : rostime) (frame_id : string) (d : RMC.data) :
  velocities (published (add_RMC p self current_time frame_id d)) =
    if RMC.fix_valid d
       && negb (use_GNSS_time p && math_isnan (RMC.utc_time d).1)
    then match math_1 math_sin (RMC.true_course d),
               math_1 math_cos (RMC.true_course d) with
         | Some sin_course, Some cos_course =>
             [TwistStamped.mk (mkHeader current_time frame_id)
                (RMC.speed d * sin_course)%float
                (RMC.speed d * cos_course)%float
                0%float 0%float 0%float 0%float]
         | _, _ => []
         end
    else [].
Proof.
  open_add_RMC.
  destruct (use_GNSS_time p), (math_isnan (RMC.utc_time d).1), (use_RMC p),
    (RMC.fix_valid d); try reflexivity;
    cbn -[math_1]; destruct (math_1 math_sin _); try reflexivity;
    destruct (math_1 math_cos _); reflexivity.
Qed.

Lemma add_RMC_self (p : params) (self : driver) (current_time : rostime)
    (frame_id : string) (d : RMC.data) :
  self' (add_RMC p self current_time frame_id d) = self.
Proof.
  open_add_RMC.
  destruct (use_GNSS_time p && math_isnan (RMC.utc_time d).1);
    [reflexivity|].
  destruct (RMC.fix_valid d); [|reflexivity].
  destruct (math_1 math_sin _); [|reflexivity].
  destruct (math_1 math_cos _); reflexivity.
Qed.

(** Only the GGA and RMC branches publish a [NavSatFix]; only the RMC
    branch publishes a velocity; only the GGA and GST branches write
    [self]. *)
Lemma add_parsed_fixes (p : params) (self : driver)
    (current_time : rostime) (frame_id : string) (ps : parsed_sentence) :
  fixes (published (add_parsed p self current_time frame_id ps)) =
    match ps with
    | KeyGGA d =>
        if use_RMC p then []
        else fixes (published (add_GGA p self current_time frame_id d))
    | KeyRMC d => fixes (published (add_RMC p self current_time frame_id d))
    | _ => []
    end.
Proof.
  destruct ps; open_add_parsed; try reflexivity.
  - destruct (use_RMC p); reflexivity.
  - unfold add_RSA. destruct (truthy _); reflexivity.
Qed.

Lemma add_parsed_velocities (p : params) (self : driver)
    (current_time : rostime) (frame_id : string) (ps : parsed_sentence) :
  velocities (published (add_parsed p self current_time frame_id ps)) =
    match ps with
    | KeyRMC d =>
        velocities (published (add_RMC p self current_time frame_id d))
    | _ => []
    end.
Proof.
  destruct ps; open_add_parsed; try reflexivity.
  - destruct (use_RMC p); [reflexivity | apply add_GGA_velocities].
  - unfold add_RSA. destruct (truthy _); reflexivity.
Qed.

Lemma add_parsed_std_devs (p : params) (self : driver)
    (current_time : rostime) (frame_id : string) (ps : parsed_sentence) :
  std_devs (self' (add_parsed p self current_time frame_id ps)) =
    std_devs_after p self (Some ps).
Proof.
  destruct ps; open_add_parsed; cbn [std_devs_after];
    try reflexivity.
  - unfold time_unusable.
    pose proof (add_GGA_self p self current_time frame_id d) as H.
    cbv zeta in H.
    destruct (use_RMC p); [reflexivity|]. cbn [negb andb].
    destruct (use_GNSS_time p), (math_isnan (GGA.utc_time d).1);
      cbn [negb andb] in *; first [now rewrite H | apply H].
  - now rewrite add_RMC_self.
  - unfold add_RSA. destruct (truthy _); reflexivity.
Qed.

(** *** GGA sentences *)

(** C2: a GGA sentence handled with [use_RMC] off, and not rejected for its
    time, leaves in [self] the standard deviations [gga_std_devs]: each one
    that is a NaN, and all three when no GST sentence was seen, falls back to
    the table's default error, doubled for the altitude.  Unless one of the
    three powers overflows, the call returns [None] and publishes exactly one
    [NavSatFix], whose covariance has [(hdop * lon_std_dev)^2] at index 0,
    [(hdop * lat_std_dev)^2] at index 4, [(2 * hdop * alt_std_dev)^2] at
    index 8 and zeros elsewhere, for the standard deviations now in [self].
    When a power overflows, the call ends in an [OverflowError] with the
    standard deviations written and nothing but the echoes published. *)
Theorem gga_covariance_from_std_devs (p : params) (self : driver)
    (now : rostime) (nmea_string frame_id : string)
    (timestamp : option rostime) (d : GGA.data) :
  check_nmea_checksum nmea_string = true ->
  parse_nmea_sentence nmea_string = Some (KeyGGA d) ->
  use_RMC p = false ->
  time_unusable p (KeyGGA d) = false ->
  let r := add_sentence p self now nmea_string frame_id timestamp in
  std_devs (self' r) = gga_std_devs p self d
  /\ match squared_diagonal float_pow (GGA.hdop d) (std_devs (self' r)) with
     | Some cov =>
         ret r = None
         /\ cov = diagonal_covariance float_pow (GGA.hdop d)
                                      (std_devs (self' r))
         /\ exists f, fixes (published r) = [f]
                      /\ NavSatFix.position_covariance f = cov
     | None =>
         ret r = Raises OverflowError
         /\ published r = raw_echo now nmea_string
     end.
Proof.
  intros Hc Hp Hrmc Htime r. subst r.
  rewrite (add_sentence_decoded p self now _ frame_id timestamp _ Hc Hp).
  cbn [ret self' published].
  pose proof (add_parsed_ret p self (current_time_of timestamp now) frame_id
                (KeyGGA d)) as Hret.
  unfold recognized in Hret. rewrite Htime, Hrmc in Hret.
  cbn [negb orb raised_by] in Hret. rewrite Hret. clear Hret.
  open_add_parsed. rewrite Hrmc. cbn [negb].
  unfold time_unusable in Htime. rewrite Hrmc in Htime.
  cbn [negb andb] in Htime. rewrite ?andb_true_l in Htime.
  pose proof (add_GGA_self p self (current_time_of timestamp now) frame_id d)
    as Hself.
  cbv zeta in Hself. rewrite Htime in Hself.
  destruct Hself as (Hsd & _ & _). rewrite Hsd. split; [reflexivity|].
  destruct (squared_diagonal float_pow (GGA.hdop d) (gga_std_devs p self d))
    as [cov|] eqn:Hsq.
  - split; [reflexivity|]. split; [now apply squared_diagonal_Some|].
    rewrite fixes_app, fixes_raw_echo,
      (add_GGA_fixes p self _ frame_id d cov Hsq), Htime.
    cbn [app]. eexists. split; [reflexivity|].
    cbn [NavSatFix.position_covariance].
    symmetry. now apply squared_diagonal_Some.
  - split; [reflexivity|].
    destruct (add_GGA_overflow p self (current_time_of timestamp now)
                frame_id d Hsq Htime) as (_ & -> & _).
    apply app_nil_r.
Qed.

(** C7: a GGA sentence whose fix type is not a key of the table is handled
    exactly as the same sentence with fix type [-1]: the same outcome of
    the chain of branches, from the table entry of [-1] (default error of
    quality 0, no fix, covariance unknown), with [valid_fix] set to
    [False] whenever the sentence is handled. *)
Theorem unknown_fix_type_as_minus_one (p : params) (self : driver)
    (current_time : rostime) (frame_id : string) (d : GGA.data) :
  GGA.fix_type d ∉ [-1; 0; 1; 2; 4; 5; 9] ->
  let r := add_parsed p self current_time frame_id (KeyGGA d) in
  gps_qualities p !! GGA.fix_type d = None
  /\ r = add_parsed p self current_time frame_id
           (KeyGGA (GGA.with_fix_type d (-1)))
  /\ quality_of p d =
       (default_epe_quality0 p, STATUS_NO_FIX, COVARIANCE_TYPE_UNKNOWN)
  /\ valid_fix (self' r) =
       if recognized p (KeyGGA d) && negb (time_unusable p (KeyGGA d))
       then false else valid_fix self.
Proof.
  intros Hk r. subst r.
  pose proof (gps_qualities_unknown p _ Hk) as Hnone.
  pose proof (effective_fix_type_unknown p _ Hnone) as Heff.
  split; [exact Hnone|]. split; [|split].
  - open_add_parsed. destruct (use_RMC p); [reflexivity|].
    cbn [negb]. open_add_GGA. unfold GGA.with_fix_type.
    cbn [GGA.utc_time GGA.fix_type GGA.latitude GGA.latitude_direction
         GGA.longitude GGA.longitude_direction GGA.altitude
         GGA.mean_sea_level GGA.hdop].
    now rewrite Heff, effective_fix_type_minus_one.
  - unfold quality_of. rewrite Heff, lookup_total_alt, gps_qualities_lookup.
    reflexivity.
  - unfold recognized, time_unusable. open_add_parsed.
    destruct (use_RMC p); [reflexivity|]. cbn [negb andb].
    pose proof (add_GGA_self p self current_time frame_id d) as Hself.
    cbv zeta in Hself. rewrite ?andb_true_l.
    destruct (use_GNSS_time p && math_isnan (GGA.utc_time d).1);
      cbn [negb].
    + now rewrite Hself.
    + destruct Hself as (_ & -> & _). now rewrite Heff.
Qed.

(** *** Hemisphere letters *)

(** C8: a GGA sentence handled with [use_RMC] off whose powers do not
    overflow, and an RMC sentence handled with [use_RMC] on, publish exactly
    one [NavSatFix]; any other call on a GGA or RMC sentence publishes none.
    In the fix published the latitude is the negation of the sentence's
    magnitude under the letter [S] and the magnitude itself under [N]; the
    longitude is the negation under [W] and the magnitude itself under
    [E]. *)
Theorem hemisphere_sign (p : params) (self : driver) (now : rostime)
    (nmea_string frame_id : string) (timestamp : option rostime)
    (ps : parsed_sentence) (lat lon : float) (ns ew : string) :
  check_nmea_checksum nmea_string = true ->
  parse_nmea_sentence nmea_string = Some ps ->
  position_of ps = Some (lat, ns, lon, ew) ->
  let r := add_sentence p self now nmea_string frame_id timestamp in
  if fix_expected float_pow p self ps then
    exists f,
      fixes (published r) = [f]
      /\ NavSatFix.latitude f = signed lat ns "S"
      /\ NavSatFix.longitude f = signed lon ew "W"
      /\ (ns = "S" -> NavSatFix.latitude f = (- lat)%float)
      /\ (ns = "N" -> NavSatFix.latitude f = lat)
      /\ (ew = "W" -> NavSatFix.longitude f = (- lon)%float)
      /\ (ew = "E" -> NavSatFix.longitude f = lon)
  else fixes (published r) = [].
Proof.
  intros Hc Hp Hpos r. subst r.
  rewrite (add_sentence_decoded p self now _ frame_id timestamp _ Hc Hp).
  cbn [published]. rewrite fixes_app, fixes_raw_echo, add_parsed_fixes.
  cbn [app].
  assert (Hsigned : forall f : NavSatFix.t,
    NavSatFix.latitude f = signed lat ns "S" ->
    NavSatFix.longitude f = signed lon ew "W" ->
    NavSatFix.latitude f = signed lat ns "S"
    /\ NavSatFix.longitude f = signed lon ew "W"
    /\ (ns = "S" -> NavSatFix.latitude f = (- lat)%float)
    /\ (ns = "N" -> NavSatFix.latitude f = lat)
    /\ (ew = "W" -> NavSatFix.longitude f = (- lon)%float)
    /\ (ew = "E" -> NavSatFix.longitude f = lon)).
  { intros f -> ->. unfold signed.
    repeat split; intros ->; reflexivity. }
  unfold fix_expected, time_unusable.
  destruct ps; try discriminate; injection Hpos as <- <- <- <-.
  - destruct (use_RMC p); [reflexivity|]. cbn [negb andb].
    rewrite ?andb_true_l.
    destruct (use_GNSS_time p && math_isnan (GGA.utc_time d).1) eqn:Htime.
    + cbn [negb andb]. gga_cases p self d; discriminate.
    + cbn [negb andb].
      destruct (squared_diagonal float_pow (GGA.hdop d)
                  (gga_std_devs p self d)) as [cov|] eqn:Hsq.
      * rewrite (add_GGA_fixes p self _ frame_id d cov Hsq), Htime.
        eexists. split; [reflexivity|]. apply Hsigned; reflexivity.
      * destruct (add_GGA_overflow p self (current_time_of timestamp now)
                    frame_id d Hsq Htime) as (_ & -> & _).
        reflexivity.
  - rewrite add_RMC_fixes.
    destruct (use_GNSS_time p && math_isnan (RMC.utc_time d).1);
      cbn [negb andb]; [now rewrite andb_false_r|].
    rewrite andb_true_r.
    destruct (use_RMC p); [|reflexivity].
    eexists. split; [reflexivity|]. apply Hsigned; reflexivity.
Qed.

(** *** RMC sentences *)

(** C3, as amended: an RMC sentence whose fix-valid flag is false gives no
    velocity message; with [use_RMC] off it gives no [NavSatFix] either,
    and with [use_RMC] on (the sentence not being rejected for its time)
    it gives one [NavSatFix], of status [STATUS_NO_FIX]. *)
Theorem rmc_without_valid_fix (p : params) (self : driver) (now : rostime)
    (nmea_string frame_id : string) (timestamp : option rostime)
    (d : RMC.data) :
  check_nmea_checksum nmea_string = true ->
  parse_nmea_sentence nmea_string = Some (KeyRMC d) ->
  RMC.fix_valid d = false ->
  let r := add_sentence p self now nmea_string frame_id timestamp in
  velocities (published r) = []
  /\ map NavSatFix.status_status (fixes (published r)) =
       if use_RMC p && negb (time_unusable p (KeyRMC d))
       then [STATUS_NO_FIX] else [].
Proof.
  intros Hc Hp Hvalid r. subst r.
  rewrite (add_sentence_decoded p self now _ frame_id timestamp _ Hc Hp).
  cbn [published].
  rewrite velocities_app, velocities_raw_echo, add_parsed_velocities,
    add_RMC_velocities, fixes_app, fixes_raw_echo, add_parsed_fixes,
    add_RMC_fixes, Hvalid.
  unfold time_unusable.
  destruct (use_GNSS_time p && math_isnan (RMC.utc_time d).1), (use_RMC p);
    split; reflexivity.
Qed.


(** *** The standard deviations across calls *)

Lemma add_sentence_std_devs (p : params) (self : driver) (now : rostime)
    (nmea_string frame_id : string) (timestamp : option rostime) :
  std_devs (self' (add_sentence p self now nmea_string frame_id timestamp)) =
    std_devs_after p self
      (if check_nmea_checksum nmea_string
       then parse_nmea_sentence nmea_string else None).
Proof.
  destruct (check_nmea_checksum nmea_string) eqn:Hc.
  - destruct (parse_nmea_sentence nmea_string) as [ps|] eqn:Hp.
    + rewrite (add_sentence_decoded p self now _ frame_id timestamp ps Hc Hp).
      apply add_parsed_std_devs.
    + now rewrite add_sentence_not_parsed.
  - now rewrite add_sentence_bad_checksum.
Qed.

Lemma gga_std_devs_not_negative (p : params) (self : driver)
    (d : GGA.data) :
  defaults_not_negative p ->
  std_devs_not_negative self ->
  let sd := gga_std_devs p self d in
  not_negative sd.1.1 /\ not_negative sd.1.2 /\ not_negative sd.2.
Proof.
  intros Hdef (Hlon & Hlat & Halt).
  assert (Hepe : not_negative (default_epe_of p d)).
  { unfold defaults_not_negative in Hdef. rewrite Forall_forall in Hdef.
    apply Hdef, default_epe_of_cases. }
  unfold gga_std_devs. cbn.
  repeat split;
    match goal with |- context [if ?b then _ else _] => destruct b end;
    auto using not_negative_double.
Qed.

Lemma std_devs_after_not_negative (p : params) (self : driver)
    (decoded : option parsed_sentence) :
  defaults_not_negative p ->
  (forall d, decoded = Some (KeyGST d) -> gst_not_negative d) ->
  std_devs_not_negative self ->
  let sd := std_devs_after p self decoded in
  not_negative sd.1.1 /\ not_negative sd.1.2 /\ not_negative sd.2.
Proof.
  intros Hdef Hgst Hself.
  destruct decoded as [[]|]; cbn [std_devs_after]; try exact Hself.
  - destruct (_ && _); [|exact Hself].
    now apply gga_std_devs_not_negative.
  - now apply Hgst.
Qed.

(** C1, as amended: the three standard deviations are written by GST
    sentences, which overwrite all three from the sentence, and by GGA
    sentences handled as the position source, which replace each one on
    its own by the table's default (doubled for the altitude) when no GST
    sentence was seen or that one is a NaN; every other call leaves them
    as they are.  In every state a sequence of calls leads to they are not
    negative, provided the configured defaults and the values of the GST
    sentences the parser decodes are not. *)
Theorem std_devs_across_calls (p : params) (self : driver) :
  defaults_not_negative p ->
  (forall nmea_string d,
     check_nmea_checksum nmea_string = true ->
     parse_nmea_sentence nmea_string = Some (KeyGST d) ->
     gst_not_negative d) ->
  reachable p self ->
  std_devs_not_negative self
  /\ forall now nmea_string frame_id timestamp,
       std_devs
         (self' (add_sentence p self now nmea_string frame_id timestamp)) =
         std_devs_after p self
           (if check_nmea_checksum nmea_string
            then parse_nmea_sentence nmea_string else None).
Proof.
  intros Hdef Hgst Hreach.
  split; [|intros; apply add_sentence_std_devs].
  induction Hreach as [|self now nmea_string frame_id timestamp _ IH].
  - repeat split.
  - pose proof (add_sentence_std_devs p self now nmea_string frame_id
                  timestamp) as Hsd.
    pose proof (std_devs_after_not_negative p self
                  (if check_nmea_checksum nmea_string
                   then parse_nmea_sentence nmea_string else None)
                  Hdef) as Hnn.
    cbv zeta in Hnn. rewrite <- Hsd in Hnn. apply Hnn; [|exact IH].
    intros d Hd. destruct (check_nmea_checksum nmea_string) eqn:Hc;
      [eauto | discriminate].
Qed.

End Properties.

(** What a table parser returns is one of the table's entries. *)
Lemma parser_of_In (table : list (string * parsed_sentence))
    (nmea_string : string) (ps : parsed_sentence) :
  parser_of table nmea_string = Some ps -> In ps (map snd table).
Proof.
  unfold parser_of.
  induction table as [|[s e] table IH]; cbn [List.find map fst snd In].
  - discriminate.
  - destruct (String.eqb s nmea_string).
    + intros [= <-]. now left.
    + intros H. right. exact (IH H).
Defined.

(** * The worked sentences, through the theorems *)

Section Worked.

Import Scenario.

(** The parser of the worked sentences decodes no GST sentence with a
    negative standard deviation. *)
Lemma decoded_gst_not_negative (nmea_string : string) (d : GST.data) :
  parser_of decoded nmea_string = Some (KeyGST d) -> gst_not_negative d.
Proof.
  intros H. apply parser_of_In in H. unfold decoded in H.
  cbn [map snd In] in H.
  repeat (destruct H as [H|H];
          [first [discriminate H | injection H as <-; repeat split] |]).
  destruct H.
Defined.

Lemma default_params_not_negative : defaults_not_negative default_params.
Proof. repeat constructor. Defined.

(** C1: after a GST and a GGA sentence the standard deviations are not
    negative, and the next call updates them as [std_devs_after] says. *)
Lemma std_devs_across_calls_witness :
  let self :=
    self' (call default_params
             (self' (call default_params init gst_sentence)) gga_sentence) in
  std_devs_not_negative self
  /\ forall now nmea_string frame_id timestamp,
       std_devs
         (self' (add_sentence any_sin any_cos any_pow
                   spec_check_nmea_checksum (parser_of decoded)
                   default_params self now nmea_string frame_id timestamp)) =
         std_devs_after default_params self
           (if spec_check_nmea_checksum nmea_string
            then parser_of decoded nmea_string else None).
Proof.
  apply std_devs_across_calls.
  - exact default_params_not_negative.
  - intros s d _. apply decoded_gst_not_negative.
  - apply reachable_call, reachable_call, reachable_init.
Defined.

(** C2: the worked GGA sentence after a GST sentence with an empty
    longitude field: the longitude deviation alone falls back to the
    default. *)
Lemma gga_covariance_from_std_devs_witness :
  let self := self' (call default_params init gst_without_lon) in
  let r := call default_params self gga_sentence in
  (using_receiver_epe self = true
   /\ std_devs self = (nan, 0.023%float, 0.031%float))
  /\ std_devs (self' r) = (4%float, 0.023%float, 0.031%float)
  /\ ret r = None
  /\ exists f, fixes (published r) = [f]
               /\ NavSatFix.position_covariance f =
                    diagonal_covariance any_pow 0.9%float
                      (4%float, 0.023%float, 0.031%float).
Proof.
  intros self r.
  pose proof (gga_covariance_from_std_devs any_sin any_cos any_pow
                spec_check_nmea_checksum (parser_of decoded) default_params
                self now gga_sentence "gps" None
                (gga_fields time_123519 "N" "E" 1)) as H.
  cbv zeta in H.
  change (add_sentence _ _ _ _ _ _ _ _ _ _ _) with r in H.
  assert (Hsd : std_devs (self' r) = (4%float, 0.023%float, 0.031%float))
    by (vm_compute; reflexivity).
  rewrite Hsd in H.
  assert (Hsq : squared_diagonal any_pow
                  (GGA.hdop (gga_fields time_123519 "N" "E" 1))
                  (4%float, 0.023%float, 0.031%float) =
                Some (diagonal_covariance any_pow 0.9%float
                        (4%float, 0.023%float, 0.031%float)))
    by (vm_compute; reflexivity).
  rewrite Hsq in H.
  split; [split; vm_compute; reflexivity|].
  split; [reflexivity|].
  destruct H as (_ & Hret & _ & Hfix); try (vm_compute; reflexivity).
  split; [exact Hret | exact Hfix].
Defined.

(** C3: the void RMC sentence with [use_RMC] on. *)
Lemma rmc_without_valid_fix_witness :
  let r := call rmc_params init rmc_void in
  velocities (published r) = []
  /\ map NavSatFix.status_status (fixes (published r)) =
       if use_RMC rmc_params
          && negb (time_unusable rmc_params
                     (KeyRMC (rmc_fields time_230394_123519 false)))
       then [STATUS_NO_FIX] else [].
Proof.
  apply (rmc_without_valid_fix any_sin any_cos any_pow
           spec_check_nmea_checksum (parser_of decoded) rmc_params init
           now rmc_void "gps" None (rmc_fields time_230394_123519 false));
    vm_compute; reflexivity.
Defined.

(** C4: the worked GGA sentence with its checksum digits altered. *)
Lemma bad_checksum_only_echoes_witness :
  let r := call default_params init gga_altered_checksum in
  ret r = Some false
  /\ self' r = init
  /\ published r = raw_echo now gga_altered_checksum
  /\ forallb is_echo (published r) = true
  /\ logged r = [invalid_checksum gga_altered_checksum].
Proof.
  apply (bad_checksum_only_echoes any_sin any_cos any_pow
           spec_check_nmea_checksum (parser_of decoded) default_params init
           now gga_altered_checksum "gps" None).
  vm_compute; reflexivity.
Defined.

(** C5: a GGA sentence without time, in GNSS-time mode. *)
Lemma unusable_time_only_echoes_witness :
  let r := call gnss_time_params init gga_without_time in
  ret r = Some false
  /\ self' r = init
  /\ published r = raw_echo now gga_without_time
  /\ forallb is_echo (published r) = true.
Proof.
  apply (unusable_time_only_echoes any_sin any_cos any_pow
           spec_check_nmea_checksum (parser_of decoded) gnss_time_params
           init now gga_without_time "gps" None
           (KeyGGA (gga_fields no_time "N" "E" 1)) (PyFloat nan));
    vm_compute; reflexivity.
Defined.

(** C6: the worked GST sentence, twice. *)
Lemma gst_twice_is_gst_once_witness :
  let r1 := call default_params init gst_sentence in
  let r2 := call default_params (self' r1) gst_sentence in
  self' r2 = self' r1
  /\ using_receiver_epe (self' r1) = true
  /\ std_devs (self' r1) = (0.020%float, 0.023%float, 0.031%float)
  /\ published
       (add_GST init (GST.mk 0.020%float 0.023%float 0.031%float)) = []
  /\ published r1 = raw_echo now gst_sentence.
Proof.
  apply (gst_twice_is_gst_once any_sin any_cos any_pow
           spec_check_nmea_checksum (parser_of decoded) default_params init
           now now gst_sentence "gps" "gps" None None
           (GST.mk 0.020%float 0.023%float 0.031%float));
    vm_compute; reflexivity.
Defined.

(** C7: fix type 3 is not a key of the table. *)
Lemma unknown_fix_type_as_minus_one_witness :
  let d := gga_fields time_123519 "S" "W" 3 in
  let r :=
    add_parsed any_sin any_cos any_pow default_params init now "gps"
               (KeyGGA d) in
  gps_qualities default_params !! 3 = None
  /\ r = add_parsed any_sin any_cos any_pow default_params init now "gps"
           (KeyGGA (gga_fields time_123519 "S" "W" (-1)))
  /\ quality_of default_params d =
       (1000000%float, STATUS_NO_FIX, COVARIANCE_TYPE_UNKNOWN)
  /\ valid_fix (self' r) = false.
Proof.
  apply (unknown_fix_type_as_minus_one any_sin any_cos any_pow
           default_params init now "gps"
           (gga_fields time_123519 "S" "W" 3)).
  cbn [GGA.fix_type gga_fields]. intros H.
  repeat (apply elem_of_cons in H as [H|H]; [discriminate H|]).
  exact (proj1 (elem_of_nil _) H).
Defined.

(** C8: a GGA sentence of the southern and western hemispheres. *)
Lemma hemisphere_sign_witness :
  let r := call default_params init gga_south_west_quality3 in
  exists f,
    fixes (published r) = [f]
    /\ NavSatFix.latitude f = signed 48.1173%float "S" "S"
    /\ NavSatFix.longitude f = signed 11.516666666666667%float "W" "W"
    /\ ("S" = "S" -> NavSatFix.latitude f = PrimFloat.opp 48.1173%float)
    /\ ("S" = "N" -> NavSatFix.latitude f = 48.1173%float)
    /\ ("W" = "W" ->
        NavSatFix.longitude f = PrimFloat.opp 11.516666666666667%float)
    /\ ("W" = "E" -> NavSatFix.longitude f = 11.516666666666667%float).
Proof.
  intros r.
  pose proof (hemisphere_sign any_sin any_cos any_pow
                spec_check_nmea_checksum (parser_of decoded) default_params
                init now gga_south_west_quality3 "gps" None
                (KeyGGA (gga_fields time_123519 "S" "W" 3))
                48.1173%float 11.516666666666667%float "S" "W") as H.
  cbv zeta in H.
  change (add_sentence _ _ _ _ _ _ _ _ _ _ _) with r in H.
  assert (Hexp : fix_expected any_pow default_params init
                   (KeyGGA (gga_fields time_123519 "S" "W" 3)) = true)
    by (vm_compute; reflexivity).
  rewrite Hexp in H.
  apply H; vm_compute; reflexivity.
Defined.


(** *** Inputs on which the specification's statements fail *)

(** C1: a GGA sentence, with no GST sentence involved, writes the three
    standard deviations; after a GST sentence with an empty longitude
    field a GGA sentence writes the longitude one alone; and a GST
    sentence with a negative field leaves a negative one in [self]. *)
Lemma std_devs_written_by_gga_partially_and_negative :
  (std_devs init = (nan, nan, nan)
   /\ std_devs (self' (call default_params init gga_sentence)) =
        (4%float, 4%float, 8%float))
  /\ (let s := self' (call default_params init gst_without_lon) in
       std_devs s = (nan, 0.023%float, 0.031%float)
       /\ std_devs (self' (call default_params s gga_sentence)) =
            (4%float, 0.023%float, 0.031%float))
  /\ (lon_std_dev
         (self' (call_with decoded_with_negative default_params init
                   gst_negative_lon)) <? 0)%float = true.
Proof. vm_compute. repeat split. Qed.

(** C3: with [use_RMC] on, an RMC sentence whose fix is not valid still
    gives a [NavSatFix], of status [STATUS_NO_FIX]. *)
Lemma rmc_void_publishes_a_fix :
  parser_of decoded rmc_void =
    Some (KeyRMC (rmc_fields time_230394_123519 false))
  /\ use_RMC rmc_params = true
  /\ map NavSatFix.status_status
       (fixes (published (call rmc_params init rmc_void))) =
       [STATUS_NO_FIX].
Proof. vm_compute. repeat split. Qed.

(** C4: the sentence with the altered checksum is published on
    [nmea_sentences] all the same. *)
Lemma bad_checksum_is_echoed :
  spec_check_nmea_checksum gga_altered_checksum = false
  /\ published (call default_params init gga_altered_checksum) =
       [nmea_pub (HeaderString.mk (mkHeader now "")
                    (gga_altered_checksum +:+ CRLF))].
Proof. vm_compute. repeat split. Qed.

(** C5: so is the GGA sentence rejected for its time. *)
Lemma unusable_time_is_echoed :
  use_GNSS_time gnss_time_params = true
  /\ parser_of decoded gga_without_time =
       Some (KeyGGA (gga_fields no_time "N" "E" 1))
  /\ math_isnan (fst no_time) = true
  /\ published (call gnss_time_params init gga_without_time) =
       [nmea_pub (HeaderString.mk (mkHeader now "")
                    (gga_without_time +:+ CRLF))].
Proof. vm_compute. repeat split. Qed.


(** A GGA sentence whose dilution of precision makes the first power
    overflow: the call ends in an [OverflowError], with [valid_fix] and the
    standard deviations written and nothing but the echo published. *)
Example gga_huge_hdop_overflows :
  let r := call default_params init gga_huge_hdop in
  ret r = Raises OverflowError
  /\ valid_fix (self' r) = true
  /\ std_devs (self' r) = (4%float, 4%float, 8%float)
  /\ published r = raw_echo now gga_huge_hdop.
Proof. vm_compute. repeat split. Qed.

End Worked.

(** * Further properties of the driver *)

(** ** Python's [split] *)

Lemma split_not_nil (sep : ascii) (s : string) : split sep s <> [].
Proof.
  destruct s as [|c s]; cbn [split]; [discriminate|].
  destruct (Ascii.eqb c sep); [discriminate|].
  destruct (split sep s); discriminate.
Qed.

(** X21.  Line 194: the pieces [nmea_string.split("\\")] gives hold no backslash,
    and joined by backslashes they are the string again. *)
Theorem split_join (nmea_string : string) :
  String.concat (String backslash EmptyString) (split backslash nmea_string)
    = nmea_string
  /\ forallb (free_of backslash) (split backslash nmea_string) = true.
Proof.
  induction nmea_string as [|c s [IHjoin IHfree]]; [split; reflexivity|].
  cbn [split]. destruct (Ascii.eqb c backslash) eqn:Hc.
  - apply Ascii.eqb_eq in Hc. subst c. split.
    + pose proof (split_not_nil backslash s) as Hne.
      destruct (split backslash s) as [|w ws]; [contradiction|].
      cbn [String.concat] in *. cbn. now rewrite IHjoin.
    + cbn [forallb free_of]. exact IHfree.
  - pose proof (split_not_nil backslash s) as Hne.
    destruct (split backslash s) as [|w ws]; [contradiction|]. split.
    + cbn [String.concat] in *. destruct ws; cbn; now rewrite <- IHjoin.
    + cbn [forallb free_of] in *. now rewrite Hc.
Qed.

(** ** What is echoed *)

(** X22.  Lines 195-205: a message is echoed exactly when it carries, stamped
    with the clock and followed by CR LF, a piece of the raw text that
    starts with [$] or [!] and has none of the four suppressed prefixes. *)
Theorem raw_echo_elements (now : rostime) (nmea_string : string)
    (m : HeaderString.t) :
  nmea_pub m ∈ raw_echo now nmea_string <->
  exists piece,
    piece ∈ split backslash nmea_string
    /\ m = HeaderString.mk (mkHeader now "") (piece +:+ CRLF)
    /\ (String.prefix "$" piece = true \/ String.prefix "!" piece = true)
    /\ echo_suppressed piece = false.
Proof.
  unfold raw_echo. rewrite list_elem_of_In, in_flat_map. split.
  - intros (piece & Hin & Hm). exists piece.
    rewrite list_elem_of_In. split; [exact Hin|].
    destruct piece as [|c rest]; cbn [echo_sentence] in Hm; [destruct Hm|].
    destruct (Ascii.eqb c "$") eqn:Hd, (Ascii.eqb c "!") eqn:Hb,
      (echo_suppressed (String c rest)) eqn:Hs; cbn in Hm;
      try (destruct Hm; fail); destruct Hm as [[= <-]|[]];
      (split; [reflexivity|]); (split; [|reflexivity]);
      cbn [String.prefix];
      repeat match goal with
             | H : Ascii.eqb _ _ = true |- _ => apply Ascii.eqb_eq in H; subst
             end;
      first [left; destruct rest; reflexivity
            | right; destruct rest; reflexivity].
  - intros (piece & Hin & -> & Hstart & Hs). exists piece.
    rewrite <- list_elem_of_In. split; [exact Hin|].
    destruct piece as [|c rest].
    + destruct Hstart as [H|H]; discriminate H.
    + cbn [echo_sentence]. rewrite Hs.
      assert (Hc : Ascii.eqb c "$" || Ascii.eqb c "!" = true).
      { destruct Hstart as [H|H]; cbn [String.prefix] in H;
          destruct (ascii_dec _ c) as [<-|]; try discriminate H;
          reflexivity. }
      rewrite Hc. now left.
Qed.

(** ** Calls of [add_sentence] *)

Ltac open_decode := unfold decode.

Lemma time_refs_app (l k : list publication) :
  (time_refs (l ++ k) = time_refs l ++ time_refs k)%list.
Proof. apply omap_app. Qed.


Lemma reports_app (l k : list publication) :
  (reports (l ++ k) = reports l ++ reports k)%list.
Proof. apply List.filter_app. Qed.

Lemma of_echo_nil (pubs : list publication) :
  forallb is_echo pubs = true ->
  time_refs pubs = [] /\ aux_messages pubs = [] /\ reports pubs = [].
Proof.
  induction pubs as [|pb pubs IH]; [repeat split|].
  cbn [forallb]. intros [Hpb Hrest]%andb_prop.
  destruct pb; try discriminate. cbn. now apply IH.
Qed.

Lemma time_refs_raw_echo (now : rostime) (nmea_string : string) :
  time_refs (raw_echo now nmea_string) = [].
Proof. apply of_echo_nil, raw_echo_is_echo. Qed.


Lemma reports_raw_echo (now : rostime) (nmea_string : string) :
  reports (raw_echo now nmea_string) = [].
Proof. apply of_echo_nil, raw_echo_is_echo. Qed.

(** The entry the GGA branch reads is the one of the fix type, and the
    entry of [-1] when there is none. *)
Lemma quality_of_default (p : params) (d : GGA.data) :
  quality_of p d =
    default (default_epe_quality0 p, STATUS_NO_FIX, COVARIANCE_TYPE_UNKNOWN)
            (gps_qualities p !! GGA.fix_type d).
Proof.
  unfold quality_of, effective_fix_type.
  rewrite lookup_total_alt.
  destruct (gps_qualities p !! GGA.fix_type d) as [q|] eqn:E.
  - case_decide as H; [now rewrite E | destruct H; eauto].
  - case_decide as H; [destruct H; discriminate|].
    now rewrite gps_qualities_lookup.
Qed.

(** Closes a case of the table once the fix type is known. *)
Ltac table_case :=
  repeat case_decide; try reflexivity; try congruence; try lia;
  try match goal with
      | H : ¬ is_Some (Some _) |- _ => destruct H; eexists; reflexivity
      | H : is_Some None |- _ => destruct H as [? [=]]
      end.

Lemma usable_fix_type_cases (k : Z) :
  usable_fix_type k =
    if decide (k = 1) then true else if decide (k = 2) then true
    else if decide (k = 4) then true else if decide (k = 5) then true
    else if decide (k = 9) then true else false.
Proof.
  unfold usable_fix_type.
  repeat (case_decide; [subst k; reflexivity|]).
  apply bool_decide_eq_false_2. intros Hin.
  repeat (apply elem_of_cons in Hin as [Hin|Hin]; [contradiction|]).
  exact (proj1 (elem_of_nil _) Hin).
Qed.

(** Line 260: [fix_type > 0], after the fallback, holds exactly for the
    keys 1, 2, 4, 5 and 9. *)
Lemma effective_fix_type_positive (p : params) (k : Z) :
  (0 <? effective_fix_type p k) = usable_fix_type k.
Proof.
  rewrite usable_fix_type_cases. unfold effective_fix_type.
  rewrite gps_qualities_lookup.
  repeat (destruct (decide (k = _)) as [->|?]; [table_case|]).
  table_case.
Qed.

(** X9.  The subscript [self.gps_qualities[fix_type]] of line 255 never
    raises [KeyError]: after the fallback the fix type is one of the seven
    keys of the table, whatever the sentence reports. *)
Theorem gps_qualities_subscript_defined (p : params) (k : Z) :
  is_Some (gps_qualities p !! effective_fix_type p k)
  /\ effective_fix_type p k ∈ [-1; 0; 1; 2; 4; 5; 9]
  /\ (gps_qualities p !! k = None <-> k ∉ [-1; 0; 1; 2; 4; 5; 9]).
Proof.
  assert (Hkeys : forall j, gps_qualities p !! j = None <->
                            j ∉ [-1; 0; 1; 2; 4; 5; 9]).
  { intros j. split; [|apply gps_qualities_unknown].
    rewrite gps_qualities_lookup. intros Hnone Hin.
    repeat (apply elem_of_cons in Hin as [->|Hin];
            [repeat case_decide; first [discriminate | lia]|]).
    exact (proj1 (elem_of_nil _) Hin). }
  assert (Hin : effective_fix_type p k ∈ [-1; 0; 1; 2; 4; 5; 9]).
  { unfold effective_fix_type. case_decide as H; [|apply list_elem_of_here].
    destruct (decide (k ∈ [-1; 0; 1; 2; 4; 5; 9])) as [|Hn]; [assumption|].
    apply Hkeys in Hn. destruct H as [q Hq]. congruence. }
  split; [|split; [exact Hin | apply Hkeys]].
  destruct (gps_qualities p !! effective_fix_type p k) eqn:E; [eauto|].
  apply Hkeys in E. contradiction.
Qed.

Section MoreProperties.

Variables math_sin math_cos : float -> float.
Variable float_pow : float -> float -> float.
Variable check_nmea_checksum : string -> bool.
Variable parse_nmea_sentence : string -> option parsed_sentence.

Abbreviation add_sentence :=
  (add_sentence math_sin math_cos float_pow check_nmea_checksum
                parse_nmea_sentence).
Abbreviation add_parsed := (add_parsed math_sin math_cos float_pow).
Abbreviation add_GGA := (add_GGA float_pow).
Abbreviation add_RMC := (add_RMC math_sin math_cos).
Abbreviation reachable :=
  (reachable math_sin math_cos float_pow check_nmea_checksum
             parse_nmea_sentence).
Abbreviation decode := (decode check_nmea_checksum parse_nmea_sentence).

(** The ways a call ends, by what it decodes. *)
Lemma add_sentence_cases (p : params) (self : driver) (now : rostime)
    (nmea_string frame_id : string) (timestamp : option rostime) :
  let r := add_sentence p self now nmea_string frame_id timestamp in
  match decode nmea_string with
  | Some ps =>
      let a := add_parsed p self (current_time_of timestamp now)
                          frame_id ps in
      r = mkOutcome (ret a) (self' a)
                    (raw_echo now nmea_string ++ published a) (logged a)
  | None =>
      r = mkOutcome (Some false) self (raw_echo now nmea_string)
            [if check_nmea_checksum nmea_string
             then failed_to_parse nmea_string
             else invalid_checksum nmea_string]
  end.
Proof.
  cbv zeta. open_decode. open_add_sentence.
  destruct (check_nmea_checksum nmea_string); cbn [negb]; [|reflexivity].
  destruct (parse_nmea_sentence nmea_string); reflexivity.
Qed.

(** What the branches publish holds no echo, and at most three messages. *)
Lemma add_parsed_reports (p : params) (self : driver)
    (current_time : rostime) (frame_id : string) (ps : parsed_sentence) :
  let a := add_parsed p self current_time frame_id ps in
  reports (published a) = published a
  /\ (length (published a) <= 3)%nat.
Proof.
  cbv zeta. destruct ps; open_add_parsed; try (split; [reflexivity|cbn; lia]).
  - destruct (use_RMC p); cbn [negb]; [split; [reflexivity|cbn; lia]|].
    gga_cases p self d; cbn; split; first [reflexivity | lia].
  - rmc_cases p d; cbn; split; first [reflexivity | lia].
  - unfold add_RSA. destruct (truthy _); split; first [reflexivity|cbn; lia].
Qed.

(** What the branches log. *)
Lemma add_parsed_logged (p : params) (self : driver)
    (current_time : rostime) (frame_id : string) (ps : parsed_sentence) :
  logged (add_parsed p self current_time frame_id ps) =
    if time_unusable p ps then [time_not_valid] else [].
Proof.
  unfold time_unusable.
  destruct ps; open_add_parsed; rewrite ?andb_false_r; try reflexivity.
  - destruct (use_RMC p); cbn [negb andb]; [now rewrite andb_false_r|].
    gga_cases p self d.
  - rmc_cases p d.
  - unfold add_RSA. destruct (truthy _); reflexivity.
Qed.

(** Which branches assign attributes of [self]. *)
Lemma add_parsed_self (p : params) (self : driver) (current_time : rostime)
    (frame_id : string) (ps : parsed_sentence) :
  self' (add_parsed p self current_time frame_id ps) =
    match ps with
    | KeyGGA d =>
        if use_RMC p then self
        else self' (add_GGA p self current_time frame_id d)
    | KeyGST d => self' (add_GST self d)
    | _ => self
    end.
Proof.
  destruct ps; open_add_parsed; try reflexivity.
  - destruct (use_RMC p); reflexivity.
  - apply add_RMC_self.
  - unfold add_RSA. destruct (truthy _); reflexivity.
Qed.

(** X1.  Every call publishes the echoes of the raw text first, whatever
    becomes of the sentence, and after them at most three messages, none of
    them on [nmea_sentences]. *)
Theorem echo_comes_first (p : params) (self : driver) (now : rostime)
    (nmea_string frame_id : string) (timestamp : option rostime) :
  let r := add_sentence p self now nmea_string frame_id timestamp in
  published r = (raw_echo now nmea_string ++ reports (published r))%list
  /\ (length (reports (published r)) <= 3)%nat.
Proof.
  cbv zeta.
  pose proof (add_sentence_cases p self now nmea_string frame_id timestamp)
    as H. cbv zeta in H.
  destruct (decode nmea_string) as [ps|]; rewrite H; cbn [published].
  - rewrite reports_app, reports_raw_echo. cbn [app].
    destruct (add_parsed_reports p self (current_time_of timestamp now)
                frame_id ps) as [-> Hlen].
    split; [reflexivity | exact Hlen].
  - rewrite reports_raw_echo, app_nil_r. split; [reflexivity | cbn; lia].
Qed.

(** X2.  A call that returns [False] has changed no attribute of [self] and
    has published nothing but the echoes. *)
Theorem failed_call_changes_nothing (p : params) (self : driver)
    (now : rostime) (nmea_string frame_id : string)
    (timestamp : option rostime) :
  let r := add_sentence p self now nmea_string frame_id timestamp in
  ret r = Some false ->
  self' r = self /\ published r = raw_echo now nmea_string.
Proof.
  cbv zeta.
  pose proof (add_sentence_cases p self now nmea_string frame_id timestamp)
    as H. cbv zeta in H.
  destruct (decode nmea_string) as [ps|]; rewrite H; cbn [ret self' published];
    [|split; reflexivity].
  rewrite add_parsed_ret.
  destruct (negb (recognized p ps) || time_unusable p ps) eqn:Hrej;
    [|destruct (raised_by _ _ _ _ _ _); discriminate].
  intros _.
  destruct (add_parsed_rejected math_sin math_cos float_pow p self
              (current_time_of timestamp now) frame_id ps Hrej) as [-> ->].
  now rewrite app_nil_r.
Qed.

(** X3.  What a call logs: a warning for a bad checksum, a debug line for a
    parse failure, a warning for an unusable time, and nothing else; a
    sentence that no branch matches is dropped without a word. *)
Theorem logged_by_call (p : params) (self : driver) (now : rostime)
    (nmea_string frame_id : string) (timestamp : option rostime) :
  logged (add_sentence p self now nmea_string frame_id timestamp) =
    if negb (check_nmea_checksum nmea_string)
    then [invalid_checksum nmea_string]
    else match parse_nmea_sentence nmea_string with
         | None => [failed_to_parse nmea_string]
         | Some ps => if time_unusable p ps then [time_not_valid] else []
         end.
Proof.
  pose proof (add_sentence_cases p self now nmea_string frame_id timestamp)
    as H. cbv zeta in H. revert H. open_decode.
  destruct (check_nmea_checksum nmea_string); cbn [negb].
  - destruct (parse_nmea_sentence nmea_string) as [ps|]; intros ->;
      cbn [logged]; [apply add_parsed_logged | reflexivity].
  - intros ->. reflexivity.
Qed.

(** X4.  A [timestamp] that is zero counts as no timestamp: the call does
    what it does without one, on the clock's time. *)
Theorem zero_timestamp_is_none (p : params) (self : driver) (now : rostime)
    (nmea_string frame_id : string) (t : rostime) :
  rostime_bool t = false ->
  add_sentence p self now nmea_string frame_id (Some t) =
    add_sentence p self now nmea_string frame_id None.
Proof.
  intros Ht. open_add_sentence. unfold current_time_of. now rewrite Ht.
Qed.

(** X5.  Only a GGA sentence handled to the end and a GST sentence change
    [self]: RMC sentences, the auxiliary ones and everything dropped leave
    every attribute as it was. *)
Theorem self_unchanged_otherwise (p : params) (self : driver)
    (now : rostime) (nmea_string frame_id : string)
    (timestamp : option rostime) :
  writes_self p (decode nmea_string) = false ->
  self' (add_sentence p self now nmea_string frame_id timestamp) = self.
Proof.
  pose proof (add_sentence_cases p self now nmea_string frame_id timestamp)
    as H. cbv zeta in H.
  destruct (decode nmea_string) as [ps|]; rewrite H; cbn [self'];
    [|reflexivity].
  rewrite add_parsed_self. unfold writes_self, time_unusable.
  destruct ps; try reflexivity; try discriminate.
  destruct (use_RMC p); [reflexivity|]. cbn [negb andb].
  pose proof (add_GGA_self float_pow p self (current_time_of timestamp now)
                frame_id d) as Hself. cbv zeta in Hself.
  destruct (use_GNSS_time p && math_isnan (GGA.utc_time d).1);
    [intros _; exact Hself | discriminate].
Qed.

(** *** Time references *)

Lemma add_GGA_time_refs (p : params) (self : driver) (current_time : rostime)
    (frame_id : string) (d : GGA.data) :
  time_refs (published (add_GGA p self current_time frame_id d)) =
    match squared_diagonal float_pow (GGA.hdop d) (gga_std_devs p self d) with
    | None => []
    | Some _ =>
        if negb (math_isnan (GGA.utc_time d).1 || use_GNSS_time p)
        then [new_time_ref p current_time frame_id
                (Time (GGA.utc_time d).1 (GGA.utc_time d).2)]
        else []
    end.
Proof.
  unfold squared_diagonal, gga_std_devs, default_epe_of.
  gga_cases p self d.
Qed.

Lemma add_GGA_last (p : params) (self : driver) (current_time : rostime)
    (frame_id : string) (d : GGA.data) :
  last_valid_fix_time (self' (add_GGA p self current_time frame_id d)) =
    match squared_diagonal float_pow (GGA.hdop d) (gga_std_devs p self d) with
    | None => last_valid_fix_time self
    | Some _ =>
        if negb (math_isnan (GGA.utc_time d).1 || use_GNSS_time p)
        then Some (new_time_ref p current_time frame_id
                     (Time (GGA.utc_time d).1 (GGA.utc_time d).2))
        else last_valid_fix_time self
    end.
Proof.
  unfold squared_diagonal, gga_std_devs, default_epe_of.
  gga_cases p self d.
Qed.

Lemma add_RMC_time_refs (p : params) (self : driver) (current_time : rostime)
    (frame_id : string) (d : RMC.data) :
  time_refs (published (add_RMC p self current_time frame_id d)) =
    if use_RMC p && negb (math_isnan (RMC.utc_time d).1 || use_GNSS_time p)
    then [new_time_ref p current_time frame_id
            (Time (RMC.utc_time d).1 (RMC.utc_time d).2)]
    else [].
Proof. rmc_cases p d. Qed.

Lemma add_parsed_time_refs (p : params) (self : driver)
    (current_time : rostime) (frame_id : string) (ps : parsed_sentence) :
  time_refs (published (add_parsed p self current_time frame_id ps)) =
    match ps with
    | KeyGGA d =>
        if use_RMC p then []
        else time_refs (published (add_GGA p self current_time frame_id d))
    | KeyRMC d =>
        time_refs (published (add_RMC p self current_time frame_id d))
    | _ => []
    end.
Proof.
  destruct ps; open_add_parsed; try reflexivity.
  - destruct (use_RMC p); reflexivity.
  - unfold add_RSA. destruct (truthy _); reflexivity.
Qed.

(** What a call publishes on [time_reference], and with which fix. *)
Lemma call_time_refs (p : params) (self : driver) (now : rostime)
    (nmea_string frame_id : string) (timestamp : option rostime) :
  let r := add_sentence p self now nmea_string frame_id timestamp in
  match time_refs (published r) with
  | [] => True
  | m :: rest =>
      rest = []
      /\ use_GNSS_time p = false
      /\ length (fixes (published r)) = 1%nat
      /\ exists ps utc,
           decode nmea_string = Some ps
           /\ utc_time_of ps = Some utc
           /\ math_isnan utc.1 = false
           /\ m = new_time_ref p (current_time_of timestamp now) frame_id
                    (Time utc.1 utc.2)
  end.
Proof.
  cbv zeta.
  pose proof (add_sentence_cases p self now nmea_string frame_id timestamp)
    as H. cbv zeta in H.
  destruct (decode nmea_string) as [ps|]; rewrite H; cbn [published].
  - rewrite time_refs_app, time_refs_raw_echo, fixes_app, fixes_raw_echo,
      add_parsed_time_refs, add_parsed_fixes.
    cbn [app].
    destruct ps; try exact I.
    + destruct (use_RMC p); [exact I|].
      rewrite add_GGA_time_refs, add_GGA_fixes_cases.
      destruct (squared_diagonal _ _ _); [|exact I].
      destruct (use_GNSS_time p), (math_isnan (GGA.utc_time d).1) eqn:Hnan;
        cbn; try exact I.
      repeat split. eexists _, _. repeat split. exact Hnan.
    + rewrite add_RMC_time_refs, add_RMC_fixes.
      destruct (use_RMC p), (use_GNSS_time p),
        (math_isnan (RMC.utc_time d).1) eqn:Hnan; cbn; try exact I.
      repeat split. eexists _, _. repeat split. exact Hnan.
  - now rewrite time_refs_raw_echo.
Qed.

(** X6.  In GNSS-time mode, where [__init__] creates no publisher for
    [time_reference] (lines 109-111), no call publishes on it. *)
Theorem no_time_reference_in_GNSS_time_mode (p : params) (self : driver)
    (now : rostime) (nmea_string frame_id : string)
    (timestamp : option rostime) :
  use_GNSS_time p = true ->
  time_refs
    (published (add_sentence p self now nmea_string frame_id timestamp)) = [].
Proof.
  intros Hg.
  pose proof (call_time_refs p self now nmea_string frame_id timestamp) as H.
  cbv zeta in H.
  destruct (time_refs _) as [|m rest]; [reflexivity|].
  destruct H as (_ & Hf & _). congruence.
Qed.

(** X7.  A time reference is published at most once per call, always beside
    exactly one [NavSatFix], and only for a GGA or RMC sentence whose time
    is not a NaN: it carries that time, the call's stamp and frame, and as
    source the parameter [~time_ref_source], or the frame when that
    parameter is unset or empty. *)
Theorem time_reference_published (p : params) (self : driver)
    (now : rostime) (nmea_string frame_id : string)
    (timestamp : option rostime) (m : TimeReference.t) :
  let r := add_sentence p self now nmea_string frame_id timestamp in
  m ∈ time_refs (published r) ->
  time_refs (published r) = [m]
  /\ length (fixes (published r)) = 1%nat
  /\ TimeReference.header m =
       mkHeader (current_time_of timestamp now) frame_id
  /\ TimeReference.source m =
       match time_ref_source p with
       | Some "" | None => frame_id
       | Some src => src
       end
  /\ exists ps utc,
       decode nmea_string = Some ps
       /\ utc_time_of ps = Some utc
       /\ math_isnan utc.1 = false
       /\ TimeReference.time_ref m = Time utc.1 utc.2.
Proof.
  cbv zeta.
  pose proof (call_time_refs p self now nmea_string frame_id timestamp) as H.
  cbv zeta in H.
  destruct (time_refs _) as [|m' rest]; [intros []%elem_of_nil|].
  destruct H as (-> & _ & Hfix & ps & utc & Hd & Hu & Hnan & ->).
  intros ->%list_elem_of_singleton.
  split; [reflexivity|]. split; [exact Hfix|]. split; [reflexivity|].
  split.
  - cbn. destruct (time_ref_source p) as [[|c src]|]; reflexivity.
  - exists ps, utc. repeat split; assumption.
Qed.

(** X8.  [last_valid_fix_time] is assigned by the GGA branch alone, and
    then it is the very time reference the call publishes; an RMC sentence
    publishes its time reference without recording it. *)
Theorem last_valid_fix_time_after_call (p : params) (self : driver)
    (now : rostime) (nmea_string frame_id : string)
    (timestamp : option rostime) :
  let r := add_sentence p self now nmea_string frame_id timestamp in
  last_valid_fix_time (self' r) =
    match decode nmea_string, time_refs (published r) with
    | Some (KeyGGA _), m :: _ => Some m
    | _, _ => last_valid_fix_time self
    end.
Proof.
  cbv zeta.
  pose proof (add_sentence_cases p self now nmea_string frame_id timestamp)
    as H. cbv zeta in H.
  destruct (decode nmea_string) as [ps|]; rewrite H; cbn [published self'];
    [|reflexivity].
  rewrite time_refs_app, time_refs_raw_echo, add_parsed_time_refs,
    add_parsed_self.
  cbn [app].
  destruct ps; try reflexivity.
  destruct (use_RMC p); [reflexivity|].
  rewrite add_GGA_time_refs, add_GGA_last.
  destruct (squared_diagonal _ _ _); [|reflexivity].
  destruct (negb _); reflexivity.
Qed.

(** *** The attributes of [self] *)

(** X10.  [using_receiver_epe] is never reset: after a call it is true if
    it was true before or the call handled a GST sentence, and only then. *)
Theorem using_receiver_epe_after_call (p : params) (self : driver)
    (now : rostime) (nmea_string frame_id : string)
    (timestamp : option rostime) :
  using_receiver_epe
    (self' (add_sentence p self now nmea_string frame_id timestamp)) =
    using_receiver_epe self
    || match decode nmea_string with Some (KeyGST _) => true | _ => false end.
Proof.
  pose proof (add_sentence_cases p self now nmea_string frame_id timestamp)
    as H. cbv zeta in H.
  destruct (decode nmea_string) as [ps|]; rewrite H; cbn [self'];
    [|now rewrite orb_false_r].
  rewrite add_parsed_self.
  destruct ps; rewrite ?orb_false_r; try reflexivity.
  - destruct (use_RMC p); [reflexivity|].
    pose proof (add_GGA_self float_pow p self (current_time_of timestamp now)
                  frame_id d) as Hself. cbv zeta in Hself.
    destruct (use_GNSS_time p && math_isnan (GGA.utc_time d).1);
      [now rewrite Hself | apply Hself].
  - cbn. now rewrite orb_true_r.
Qed.

(** X11.  [valid_fix] is assigned by a GGA sentence handled to the end, and
    by nothing else; it is then true exactly when the sentence's fix type is
    1, 2, 4, 5 or 9. *)
Theorem valid_fix_after_call (p : params) (self : driver) (now : rostime)
    (nmea_string frame_id : string) (timestamp : option rostime) :
  valid_fix (self' (add_sentence p self now nmea_string frame_id timestamp)) =
    match decode nmea_string with
    | Some (KeyGGA d) =>
        if gga_handled p d then usable_fix_type (GGA.fix_type d)
        else valid_fix self
    | _ => valid_fix self
    end.
Proof.
  pose proof (add_sentence_cases p self now nmea_string frame_id timestamp)
    as H. cbv zeta in H.
  destruct (decode nmea_string) as [ps|]; rewrite H; cbn [self'];
    [|reflexivity].
  rewrite add_parsed_self.
  destruct ps; try reflexivity.
  unfold gga_handled, time_unusable.
  destruct (use_RMC p); [reflexivity|]. cbn [negb andb].
  pose proof (add_GGA_self float_pow p self (current_time_of timestamp now)
                frame_id d) as Hself. cbv zeta in Hself.
  destruct (use_GNSS_time p && math_isnan (GGA.utc_time d).1); cbn [negb].
  - now rewrite Hself.
  - destruct Hself as (_ & -> & _). apply effective_fix_type_positive.
Qed.

(** *** The fixes published *)

(** What a call publishes on [fix]. *)
Lemma call_fixes (p : params) (self : driver) (now : rostime)
    (nmea_string frame_id : string) (timestamp : option rostime) :
  let current_time := current_time_of timestamp now in
  fixes (published (add_sentence p self now nmea_string frame_id timestamp)) =
    match decode nmea_string with
    | Some (KeyGGA d) =>
        if use_RMC p then []
        else fixes (published (add_GGA p self current_time frame_id d))
    | Some (KeyRMC d) =>
        fixes (published (add_RMC p self current_time frame_id d))
    | _ => []
    end.
Proof.
  cbv zeta.
  pose proof (add_sentence_cases p self now nmea_string frame_id timestamp)
    as H. cbv zeta in H.
  destruct (decode nmea_string) as [ps|]; rewrite H; cbn [published].
  - rewrite fixes_app, fixes_raw_echo, add_parsed_fixes. cbn [app].
    destruct ps; reflexivity.
  - apply fixes_raw_echo.
Qed.

(** X12.  A call publishes at most one [NavSatFix], and only for a GGA or
    RMC sentence.  It carries the frame of the call and the service GPS; its
    stamp is the sentence's own time in GNSS-time mode and the time of the
    call otherwise. *)
Theorem fix_header (p : params) (self : driver) (now : rostime)
    (nmea_string frame_id : string) (timestamp : option rostime)
    (f : NavSatFix.t) :
  let r := add_sentence p self now nmea_string frame_id timestamp in
  f ∈ fixes (published r) ->
  fixes (published r) = [f]
  /\ NavSatFix.status_service f = SERVICE_GPS
  /\ exists ps utc,
       decode nmea_string = Some ps
       /\ utc_time_of ps = Some utc
       /\ NavSatFix.header f =
            mkHeader (if use_GNSS_time p then Time utc.1 utc.2
                      else current_time_of timestamp now) frame_id.
Proof.
  cbv zeta. rewrite call_fixes.
  destruct (decode nmea_string) as [[]|];
    try (intros []%elem_of_nil; fail).
  - destruct (use_RMC p); [intros []%elem_of_nil|].
    rewrite add_GGA_fixes_cases.
    destruct (squared_diagonal _ _ _); [|intros []%elem_of_nil].
    destruct (_ && _); [intros []%elem_of_nil|].
    intros ->%list_elem_of_singleton.
    repeat split. eexists _, _. repeat split.
  - rewrite add_RMC_fixes. destruct (_ && _); [intros []%elem_of_nil|].
    destruct (use_RMC p); [|intros []%elem_of_nil].
    intros ->%list_elem_of_singleton.
    repeat split. eexists _, _. repeat split.
Qed.

(** X13.  The [NavSatFix] of a GGA sentence agrees with [valid_fix]: its
    status is [STATUS_NO_FIX] and its covariance type unknown exactly when
    the call leaves [valid_fix] false, and the covariance type is
    approximated exactly when it leaves it true.  The altitude is the sum of
    the sentence's altitude and mean sea level. *)
Theorem gga_fix_agrees_with_valid_fix (p : params) (self : driver)
    (now : rostime) (nmea_string frame_id : string)
    (timestamp : option rostime) (d : GGA.data) (f : NavSatFix.t) :
  let r := add_sentence p self now nmea_string frame_id timestamp in
  decode nmea_string = Some (KeyGGA d) ->
  f ∈ fixes (published r) ->
  (NavSatFix.status_status f = STATUS_NO_FIX <-> valid_fix (self' r) = false)
  /\ (NavSatFix.position_covariance_type f = COVARIANCE_TYPE_UNKNOWN
      <-> valid_fix (self' r) = false)
  /\ (NavSatFix.position_covariance_type f = COVARIANCE_TYPE_APPROXIMATED
      <-> valid_fix (self' r) = true)
  /\ NavSatFix.altitude f = (GGA.altitude d + GGA.mean_sea_level d)%float.
Proof.
  cbv zeta. intros Hd. rewrite call_fixes, Hd.
  pose proof (add_sentence_cases p self now nmea_string frame_id timestamp)
    as H. cbv zeta in H. rewrite Hd in H. rewrite H. cbn [self'].
  rewrite add_parsed_self.
  destruct (use_RMC p); [intros []%elem_of_nil|].
  rewrite add_GGA_fixes_cases.
  destruct (squared_diagonal _ _ _); [|intros []%elem_of_nil].
  pose proof (add_GGA_self float_pow p self (current_time_of timestamp now)
                frame_id d) as Hself. cbv zeta in Hself.
  destruct (use_GNSS_time p && math_isnan (GGA.utc_time d).1);
    [intros []%elem_of_nil|].
  destruct Hself as (_ & -> & _).
  intros ->%list_elem_of_singleton.
  cbn [NavSatFix.status_status NavSatFix.position_covariance_type
       NavSatFix.altitude].
  rewrite effective_fix_type_positive, usable_fix_type_cases,
    quality_of_default, gps_qualities_lookup.
  unfold STATUS_NO_FIX, STATUS_FIX, STATUS_SBAS_FIX, STATUS_GBAS_FIX,
    COVARIANCE_TYPE_UNKNOWN, COVARIANCE_TYPE_APPROXIMATED.
  generalize (GGA.fix_type d). intros k.
  repeat (destruct (decide (k = _)) as [->|?];
          [repeat case_decide; cbn; repeat split; intros; congruence|]).
  cbn. repeat split; intros; congruence.
Qed.

(** X14.  The [NavSatFix] of an RMC sentence is published only with
    [use_RMC] on, and has no altitude (a NaN), a covariance of nine zeros of
    unknown type, and the status [STATUS_FIX] or [STATUS_NO_FIX] after the
    sentence's own validity flag; [valid_fix] is not consulted and not
    assigned. *)
Theorem rmc_fix_content (p : params) (self : driver) (now : rostime)
    (nmea_string frame_id : string) (timestamp : option rostime)
    (d : RMC.data) (f : NavSatFix.t) :
  let r := add_sentence p self now nmea_string frame_id timestamp in
  decode nmea_string = Some (KeyRMC d) ->
  f ∈ fixes (published r) ->
  use_RMC p = true
  /\ NavSatFix.altitude f = nan
  /\ NavSatFix.position_covariance f = replicate 9 0%float
  /\ NavSatFix.position_covariance_type f = COVARIANCE_TYPE_UNKNOWN
  /\ NavSatFix.status_status f =
       (if RMC.fix_valid d then STATUS_FIX else STATUS_NO_FIX)
  /\ self' r = self.
Proof.
  cbv zeta. intros Hd. rewrite call_fixes, Hd.
  pose proof (add_sentence_cases p self now nmea_string frame_id timestamp)
    as H. cbv zeta in H. rewrite Hd in H. rewrite H. cbn [self'].
  rewrite add_parsed_self, add_RMC_fixes.
  destruct (_ && _); [intros []%elem_of_nil|].
  destruct (use_RMC p); [|intros []%elem_of_nil].
  intros ->%list_elem_of_singleton. repeat split.
Qed.

(** *** RMC as the position source *)

(** X15.  With [use_RMC] on, no sequence of calls ever sets [valid_fix] or
    [last_valid_fix_time], and the standard deviations stay the NaNs of
    [__init__] until a GST sentence arrives: the GGA branch, which alone
    assigns them otherwise, is never taken. *)
Theorem rmc_mode_never_sets_valid_fix (p : params) (self : driver) :
  use_RMC p = true ->
  reachable p self ->
  valid_fix self = false
  /\ last_valid_fix_time self = None
  /\ (using_receiver_epe self = true \/ std_devs self = (nan, nan, nan)).
Proof.
  intros Hrmc Hreach.
  induction Hreach as [|self now nmea_string frame_id timestamp _ IH].
  - repeat split. now right.
  - pose proof (add_sentence_cases p self now nmea_string frame_id timestamp)
      as H. cbv zeta in H.
    destruct (decode nmea_string) as [ps|]; rewrite H; cbn [self'];
      [|exact IH].
    rewrite add_parsed_self, Hrmc.
    destruct ps; try exact IH.
    destruct IH as (Hv & Hl & _). cbn. repeat split; auto.
Qed.

(** *** The auxiliary sentences *)


(** *** Sentences in sequence *)

Lemma call_gga_self (p : params) (self : driver) (now : rostime)
    (nmea_string frame_id : string) (timestamp : option rostime)
    (d : GGA.data) :
  decode nmea_string = Some (KeyGGA d) ->
  let s := self' (add_sentence p self now nmea_string frame_id timestamp) in
  if gga_handled p d
  then std_devs s = gga_std_devs p self d
       /\ valid_fix s = (0 <? effective_fix_type p (GGA.fix_type d))
       /\ using_receiver_epe s = using_receiver_epe self
  else s = self.
Proof.
  intros Hd. cbv zeta.
  pose proof (add_sentence_cases p self now nmea_string frame_id timestamp)
    as H. cbv zeta in H. rewrite Hd in H. rewrite H. cbn [self'].
  rewrite add_parsed_self. unfold gga_handled, time_unusable.
  destruct (use_RMC p); [reflexivity|]. cbn [negb andb].
  pose proof (add_GGA_self float_pow p self (current_time_of timestamp now)
                frame_id d) as Hself. cbv zeta in Hself.
  destruct (use_GNSS_time p && math_isnan (GGA.utc_time d).1); exact Hself.
Qed.

(** The standard deviations the GGA branch leaves are a fixed point of it. *)
Lemma gga_std_devs_again (p : params) (self s : driver) (d : GGA.data) :
  std_devs s = gga_std_devs p self d ->
  using_receiver_epe s = using_receiver_epe self ->
  gga_std_devs p s d = gga_std_devs p self d.
Proof.
  unfold std_devs, gga_std_devs. intros [= Hlon Hlat Halt] Hure.
  rewrite Hure, Hlon, Hlat, Halt.
  destruct (using_receiver_epe self); cbn [negb orb]; [|reflexivity].
  repeat match goal with
         | |- context [PrimFloat.is_nan (if PrimFloat.is_nan ?x then _ else _)]
           => let E := fresh "E" in
              destruct (PrimFloat.is_nan x) eqn:E; rewrite ?E
         end;
  repeat match goal with
         | |- context [if PrimFloat.is_nan ?x then _ else _] =>
             destruct (PrimFloat.is_nan x)
         end; reflexivity.
Qed.

(** X17.  Handling the same GGA sentence a second time changes neither the
    standard deviations, nor [valid_fix], nor [using_receiver_epe]: with
    respect to them the GGA branch is idempotent. *)
Theorem gga_twice_is_gga_once (p : params) (self : driver)
    (now1 now2 : rostime) (nmea_string frame1 frame2 : string)
    (timestamp1 timestamp2 : option rostime) (d : GGA.data) :
  decode nmea_string = Some (KeyGGA d) ->
  let s1 := self' (add_sentence p self now1 nmea_string frame1 timestamp1) in
  let s2 := self' (add_sentence p s1 now2 nmea_string frame2 timestamp2) in
  std_devs s2 = std_devs s1
  /\ valid_fix s2 = valid_fix s1
  /\ using_receiver_epe s2 = using_receiver_epe s1.
Proof.
  intros Hd. cbv zeta.
  pose proof (call_gga_self p self now1 nmea_string frame1 timestamp1 d Hd)
    as H1.
  set (s1 := self' (add_sentence p self now1 nmea_string frame1 timestamp1))
    in *.
  pose proof (call_gga_self p s1 now2 nmea_string frame2 timestamp2 d Hd)
    as H2.
  cbv zeta in H1, H2.
  destruct (gga_handled p d); [|now rewrite H2].
  destruct H1 as (Hsd1 & Hv1 & Hu1), H2 as (Hsd2 & Hv2 & Hu2).
  rewrite Hsd2, Hv2, Hu2, Hv1, Hsd1.
  split; [|split; reflexivity].
  now apply gga_std_devs_again.
Qed.

(** X18.  A GST sentence followed by a GGA sentence: the fix of the GGA
    sentence is computed from the standard deviations the GST sentence
    reported, each replaced by the table's default (doubled for the
    altitude) only if the receiver reported a NaN for it. *)
Theorem gst_then_gga (p : params) (self : driver) (now1 now2 : rostime)
    (gst gga frame1 frame2 : string) (timestamp1 timestamp2 : option rostime)
    (g : GST.data) (d : GGA.data) (f : NavSatFix.t) :
  decode gst = Some (KeyGST g) ->
  decode gga = Some (KeyGGA d) ->
  let s1 := self' (add_sentence p self now1 gst frame1 timestamp1) in
  let r2 := add_sentence p s1 now2 gga frame2 timestamp2 in
  f ∈ fixes (published r2) ->
  let sd :=
    (if PrimFloat.is_nan (GST.lon_std_dev g) then default_epe_of p d
     else GST.lon_std_dev g,
     if PrimFloat.is_nan (GST.lat_std_dev g) then default_epe_of p d
     else GST.lat_std_dev g,
     if PrimFloat.is_nan (GST.alt_std_dev g) then (default_epe_of p d * 2)%float
     else GST.alt_std_dev g) in
  std_devs (self' r2) = sd
  /\ using_receiver_epe (self' r2) = true
  /\ NavSatFix.position_covariance f =
       diagonal_covariance float_pow (GGA.hdop d) sd.
Proof.
  intros Hg Hd. cbv zeta.
  pose proof (add_sentence_cases p self now1 gst frame1 timestamp1) as H1.
  cbv zeta in H1. rewrite Hg in H1. rewrite H1. cbn [self'].
  rewrite add_parsed_self.
  set (s1 := self' (add_GST self g)).
  pose proof (call_gga_self p s1 now2 gga frame2 timestamp2 d Hd) as H2.
  cbv zeta in H2.
  rewrite call_fixes, Hd.
  unfold gga_handled, time_unusable in H2.
  destruct (use_RMC p); [intros []%elem_of_nil|]. cbn [negb andb] in H2.
  rewrite add_GGA_fixes_cases.
  destruct (squared_diagonal _ _ _); [|intros []%elem_of_nil].
  destruct (use_GNSS_time p && math_isnan (GGA.utc_time d).1);
    [intros []%elem_of_nil|].
  cbn [negb] in H2. destruct H2 as (-> & _ & ->).
  intros ->%list_elem_of_singleton. repeat split.
Qed.

End MoreProperties.

(** ** The frame identifier *)

Lemma length_append (a b : string) :
  String.length (a +:+ b) = (String.length a + String.length b)%nat.
Proof.
  induction a as [|c a IH]; [reflexivity|].
  change (S (String.length (a +:+ b)) =
          S (String.length a + String.length b)).
  now rewrite IH.
Qed.

Lemma append_assoc (a b c : string) : (a +:+ b) +:+ c = a +:+ b +:+ c.
Proof.
  induction a as [|x a IH]; [reflexivity|].
  change (String x ((a +:+ b) +:+ c) = String x (a +:+ b +:+ c)).
  now rewrite IH.
Qed.

(** X19.  [get_frame_id] returns the bare frame name exactly when
    [search_param] finds no [tf_prefix]; when it finds one, under a name
    that is not empty, the result is the value [get_param] reads under that
    name, a slash and the frame name, with the slash even if that value is
    empty.  Either way the result ends in the frame name. *)
Theorem get_frame_id_bare_iff (server : gmap string string)
    (search_param : string -> option string) (r : string) :
  get_frame_id server search_param = Some r ->
  (r = base_frame_id server <->
   (search_param "tf_prefix" = None \/ search_param "tf_prefix" = Some ""))
  /\ (forall k, search_param "tf_prefix" = Some k -> k <> "" ->
       exists v, server !! k = Some v
                 /\ r = v +:+ "/" +:+ base_frame_id server)
  /\ exists prefix,
       r = prefix +:+ base_frame_id server
       /\ (prefix = "" \/ exists v, prefix = v +:+ "/").
Proof.
  unfold get_frame_id. cbv zeta.
  destruct (search_param "tf_prefix") as [k|] eqn:Hs.
  - destruct (String.eqb_spec k "") as [->|Hk]; cbn [negb].
    + intros [= <-]. split; [split; auto|]. split.
      * intros k [= <-] Hne. contradiction.
      * exists "". split; [reflexivity|]. now left.
    + destruct (server !! k) as [v|] eqn:Hv; [|discriminate].
      intros Hr. injection Hr as Hr. subst r. split; [|split].
      * split.
        -- intros Heq. apply (f_equal String.length) in Heq.
           rewrite !length_append in Heq. cbn in Heq. lia.
        -- intros [[=]|[= ->]]. contradiction.
      * intros k' [= <-] _. exists v. split; [exact Hv | reflexivity].
      * exists (v +:+ "/"). split; [|right; eauto].
        now rewrite append_assoc.
  - intros [= <-]. split; [split; auto|]. split.
    + intros k [=].
    + exists "". split; [reflexivity|]. now left.
Qed.

(** X20.  [get_frame_id] raises no [KeyError] as long as the name
    [search_param] gives is one [get_param] finds; without any parameter
    set it returns [gps]. *)
Theorem get_frame_id_defined (server : gmap string string)
    (search_param : string -> option string) :
  (forall k, search_param "tf_prefix" = Some k -> is_Some (server !! k)) ->
  is_Some (get_frame_id server search_param)
  /\ (server = ∅ -> get_frame_id server search_param = Some "gps").
Proof.
  intros Hfound. unfold get_frame_id. cbv zeta.
  destruct (search_param "tf_prefix") as [k|] eqn:Hs.
  - destruct (Hfound k eq_refl) as [v Hv]. split.
    + destruct (negb _); [rewrite Hv|]; eauto.
    + intros ->. rewrite lookup_empty in Hv. discriminate.
  - split; [eauto|]. intros ->. reflexivity.
Qed.

(** * The worked sentences, through the further properties *)

Section MoreWorked.

Import Scenario.

(** X2: the GGA sentence with the altered checksum. *)
Lemma failed_call_changes_nothing_witness :
  let r := call default_params init gga_altered_checksum in
  self' r = init /\ published r = raw_echo now gga_altered_checksum.
Proof.
  apply (failed_call_changes_nothing any_sin any_cos any_pow
           spec_check_nmea_checksum (parser_of decoded) default_params init
           now gga_altered_checksum "gps" None).
  vm_compute; reflexivity.
Defined.

(** X4: the worked GGA sentence with a zero timestamp. *)
Lemma zero_timestamp_is_none_witness :
  add_sentence any_sin any_cos any_pow spec_check_nmea_checksum
               (parser_of decoded) default_params init now gga_sentence
               "gps" (Some zero_time) =
    call default_params init gga_sentence.
Proof.
  apply (zero_timestamp_is_none any_sin any_cos any_pow
           spec_check_nmea_checksum (parser_of decoded) default_params init
           now gga_sentence "gps" zero_time).
  reflexivity.
Defined.

(** X5: an RMC sentence with [use_RMC] on publishes a fix and leaves
    [self] alone. *)
Lemma self_unchanged_otherwise_witness :
  self' (call rmc_params init rmc_sentence) = init.
Proof.
  apply (self_unchanged_otherwise any_sin any_cos any_pow
           spec_check_nmea_checksum (parser_of decoded) rmc_params init
           now rmc_sentence "gps" None).
  vm_compute; reflexivity.
Defined.

(** X6: the worked GGA sentence in GNSS-time mode. *)
Lemma no_time_reference_in_GNSS_time_mode_witness :
  time_refs (published (call gnss_time_params init gga_sentence)) = [].
Proof.
  apply (no_time_reference_in_GNSS_time_mode any_sin any_cos any_pow
           spec_check_nmea_checksum (parser_of decoded) gnss_time_params
           init now gga_sentence "gps" None).
  reflexivity.
Defined.

(** X7: the time reference of the worked GGA sentence. *)
Lemma time_reference_published_witness :
  let r := call default_params init gga_sentence in
  let m := TimeReference.mk (mkHeader now "gps")
             (Time (PyInt 45319) (PyInt 0)) "gps" in
  time_refs (published r) = [m]
  /\ length (fixes (published r)) = 1%nat
  /\ TimeReference.header m = mkHeader now "gps"
  /\ TimeReference.source m = "gps"
  /\ exists ps utc,
       decode spec_check_nmea_checksum (parser_of decoded) gga_sentence
         = Some ps
       /\ utc_time_of ps = Some utc
       /\ math_isnan utc.1 = false
       /\ TimeReference.time_ref m = Time utc.1 utc.2.
Proof.
  intros r m.
  apply (time_reference_published any_sin any_cos any_pow
           spec_check_nmea_checksum (parser_of decoded) default_params init
           now gga_sentence "gps" None m).
  vm_compute. apply list_elem_of_here.
Defined.

(** X12: the worked GGA sentence. *)
Lemma fix_header_witness :
  let r := call default_params init gga_sentence in
  fixes (published r) = [Auxiliary.gga_fix]
  /\ NavSatFix.status_service Auxiliary.gga_fix = SERVICE_GPS
  /\ exists ps utc,
       decode spec_check_nmea_checksum (parser_of decoded) gga_sentence
         = Some ps
       /\ utc_time_of ps = Some utc
       /\ NavSatFix.header Auxiliary.gga_fix =
            mkHeader (if use_GNSS_time default_params then Time utc.1 utc.2
                      else current_time_of None now) "gps".
Proof.
  apply (fix_header any_sin any_cos any_pow spec_check_nmea_checksum
           (parser_of decoded) default_params init now gga_sentence "gps"
           None Auxiliary.gga_fix).
  vm_compute. apply list_elem_of_here.
Defined.

(** X13: the worked GGA sentence, of fix type 1. *)
Lemma gga_fix_agrees_with_valid_fix_witness :
  let r := call default_params init gga_sentence in
  (NavSatFix.status_status Auxiliary.gga_fix = STATUS_NO_FIX
   <-> valid_fix (self' r) = false)
  /\ (NavSatFix.position_covariance_type Auxiliary.gga_fix = COVARIANCE_TYPE_UNKNOWN
      <-> valid_fix (self' r) = false)
  /\ (NavSatFix.position_covariance_type Auxiliary.gga_fix
        = COVARIANCE_TYPE_APPROXIMATED
      <-> valid_fix (self' r) = true)
  /\ NavSatFix.altitude Auxiliary.gga_fix = (545.4 + 46.9)%float.
Proof.
  apply (gga_fix_agrees_with_valid_fix any_sin any_cos any_pow
           spec_check_nmea_checksum (parser_of decoded) default_params init
           now gga_sentence "gps" None (gga_fields time_123519 "N" "E" 1)
           Auxiliary.gga_fix).
  - vm_compute; reflexivity.
  - vm_compute. apply list_elem_of_here.
Defined.

(** X14: the void RMC sentence with [use_RMC] on. *)
Lemma rmc_fix_content_witness :
  let r := call rmc_params init rmc_void in
  use_RMC rmc_params = true
  /\ NavSatFix.altitude Auxiliary.rmc_void_fix = nan
  /\ NavSatFix.position_covariance Auxiliary.rmc_void_fix = replicate 9 0%float
  /\ NavSatFix.position_covariance_type Auxiliary.rmc_void_fix
       = COVARIANCE_TYPE_UNKNOWN
  /\ NavSatFix.status_status Auxiliary.rmc_void_fix =
       (if RMC.fix_valid (rmc_fields time_230394_123519 false)
        then STATUS_FIX else STATUS_NO_FIX)
  /\ self' r = init.
Proof.
  apply (rmc_fix_content any_sin any_cos any_pow spec_check_nmea_checksum
           (parser_of decoded) rmc_params init now rmc_void "gps" None
           (rmc_fields time_230394_123519 false) Auxiliary.rmc_void_fix).
  - vm_compute; reflexivity.
  - vm_compute. apply list_elem_of_here.
Defined.

(** X15: with [use_RMC] on, after a GGA and an RMC sentence. *)
Lemma rmc_mode_never_sets_valid_fix_witness :
  let self :=
    self' (call rmc_params (self' (call rmc_params init gga_sentence))
             rmc_sentence) in
  valid_fix self = false
  /\ last_valid_fix_time self = None
  /\ (using_receiver_epe self = true \/ std_devs self = (nan, nan, nan)).
Proof.
  apply (rmc_mode_never_sets_valid_fix any_sin any_cos any_pow
           spec_check_nmea_checksum (parser_of decoded) rmc_params).
  - reflexivity.
  - apply reachable_call, reachable_call, reachable_init.
Defined.


(** X17: the worked GGA sentence, twice. *)
Lemma gga_twice_is_gga_once_witness :
  let s1 := self' (call default_params init gga_sentence) in
  let s2 := self' (call default_params s1 gga_sentence) in
  std_devs s2 = std_devs s1
  /\ valid_fix s2 = valid_fix s1
  /\ using_receiver_epe s2 = using_receiver_epe s1.
Proof.
  apply (gga_twice_is_gga_once any_sin any_cos any_pow
           spec_check_nmea_checksum (parser_of decoded) default_params init
           now now gga_sentence "gps" "gps" None None
           (gga_fields time_123519 "N" "E" 1)).
  vm_compute; reflexivity.
Defined.

(** X18: the worked GST sentence, then the worked GGA sentence. *)
Lemma gst_then_gga_witness :
  let s1 := self' (call default_params init gst_sentence) in
  let r2 := call default_params s1 gga_sentence in
  let sd := (0.020%float, 0.023%float, 0.031%float) in
  std_devs (self' r2) = sd
  /\ using_receiver_epe (self' r2) = true
  /\ NavSatFix.position_covariance Auxiliary.gga_fix_after_gst =
       diagonal_covariance any_pow 0.9%float sd.
Proof.
  apply (gst_then_gga any_sin any_cos any_pow spec_check_nmea_checksum
           (parser_of decoded) default_params init now now gst_sentence
           gga_sentence "gps" "gps" None None
           (GST.mk 0.020%float 0.023%float 0.031%float)
           (gga_fields time_123519 "N" "E" 1) Auxiliary.gga_fix_after_gst).
  - vm_compute; reflexivity.
  - vm_compute; reflexivity.
  - vm_compute. apply list_elem_of_here.
Defined.

(** X19: a [tf_prefix] of [robot]. *)
Lemma get_frame_id_bare_iff_witness :
  ("robot/gps" = base_frame_id Auxiliary.server <->
   (Auxiliary.search_param "tf_prefix" = None
    \/ Auxiliary.search_param "tf_prefix" = Some ""))
  /\ (forall k, Auxiliary.search_param "tf_prefix" = Some k -> k <> "" ->
       exists v, Auxiliary.server !! k = Some v
                 /\ "robot/gps" = v +:+ "/" +:+ base_frame_id Auxiliary.server)
  /\ exists prefix,
       "robot/gps" = prefix +:+ base_frame_id Auxiliary.server
       /\ (prefix = "" \/ exists v, prefix = v +:+ "/").
Proof.
  apply (get_frame_id_bare_iff Auxiliary.server Auxiliary.search_param).
  vm_compute; reflexivity.
Defined.

(** X20: the same parameter server. *)
Lemma get_frame_id_defined_witness :
  is_Some (get_frame_id Auxiliary.server Auxiliary.search_param)
  /\ (Auxiliary.server = ∅ ->
      get_frame_id Auxiliary.server Auxiliary.search_param = Some "gps").
Proof.
  apply (get_frame_id_defined Auxiliary.server Auxiliary.search_param).
  intros k [= <-]. exists "robot". vm_compute; reflexivity.
Defined.

End MoreWorked.
